(** * Sleep-Disorder-Detection-App: the prediction pipeline of [DA.py]

    A shallow embedding of the Streamlit script [DA.py]: the label-encoding
    transformer, the application object with its loaders, the input form,
    the preprocessing step, the result display, and the [run] method.

    Python values are modelled as follows.
    - A [float] is an IEEE 754 binary64 number, [spec_float] of the
      Standard Library with [prec = 53] and [emax = 1024]; [np.sqrt] is the
      correctly rounded square root [SFsqrt].
    - An exception is a class with the text that [str(e)] gives; a call
      that may raise returns a [result].
    - A method of [SleepDisorderApp] is a [script]: it reads and updates
      [self], appends to the trace of calls made on Streamlit and on the two
      loaded artifacts, and returns or raises.
    - A [pandas.DataFrame] is the ordered list of its named columns. *)

From Stdlib Require Import ZArith QArith Qabs.
From Stdlib Require Import Floats.SpecFloat.
From stdpp Require Import base strings list gmap pretty.

Local Open Scope Z_scope.

(** ** Python: floats, exceptions, results *)

Module Py.

Definition prec : Z := 53.
Definition emax : Z := 1024.

Abbreviation float := spec_float.

(** The float nearest to [m * 2^e] (ties to even), for literals such as
    [7.5 = 15 * 2^-1], and the conversion of an integer. *)
Definition float_lit (m e : Z) : float := binary_normalize prec emax m e false.
Definition float_of_int (z : Z) : float := float_lit z 0.

(** The rational value of a finite float. *)
Definition float_to_Q (f : float) : option Q :=
  match f with
  | S754_zero _ => Some 0%Q
  | S754_finite s m e =>
      let v := ((Zpos m # 1) * Qpower 2 e)%Q in
      Some (if s then (- v)%Q else v)
  | _ => None
  end.

(** The integer a float is equal to, when it is one ([1.0 == 1]). *)
Definition float_to_int (f : float) : option Z :=
  match f with
  | S754_zero _ => Some 0
  | S754_finite s m e =>
      let sign z := if s then - z else z in
      if 0 <=? e then Some (sign (Zpos m * 2 ^ e))
      else if Zpos m mod 2 ^ (- e) =? 0 then Some (sign (Zpos m / 2 ^ (- e)))
      else None
  | _ => None
  end.

Inductive exn_class :=
| FileNotFoundError
| KeyError
| TypeError
| AttributeError
| IndexError
| ValueError
| OtherException      (* any other subclass of Exception *)
| StopException.      (* raised by st.stop(); not an Exception *)

Record exn := Exn { class_of : exn_class; str : string }.

Definition exn_class_eqb (c d : exn_class) : bool :=
  match c, d with
  | FileNotFoundError, FileNotFoundError
  | KeyError, KeyError
  | TypeError, TypeError
  | AttributeError, AttributeError
  | IndexError, IndexError
  | ValueError, ValueError
  | OtherException, OtherException
  | StopException, StopException => true
  | _, _ => false
  end.

(** [except Exception] and [except FileNotFoundError]. *)
Definition is_Exception (e : exn) : bool :=
  negb (exn_class_eqb (class_of e) StopException).
Definition is_FileNotFoundError (e : exn) : bool :=
  exn_class_eqb (class_of e) FileNotFoundError.

Inductive result (A : Type) :=
| Ok (a : A)
| Raise (e : exn).
Arguments Ok {A} a.
Arguments Raise {A} e.

Definition and_then {A B} (r : result A) (k : A -> result B) : result B :=
  match r with
  | Ok a => k a
  | Raise e => Raise e
  end.

(** The double-quote character, for the HTML texts. *)
Definition dq : string := String (Ascii.ascii_of_nat 34) EmptyString.

End Py.
Import Py.

(** ** numpy and pandas: columns and data frames *)

(** A column has one dtype: [object] (here always [str]), integer or
    [float64]. A list of Python integers makes an integer column when all of
    them fit [int64], or all of them [uint64]; where they do not, pandas
    keeps them as objects (see [np.sqrt]). *)
Inductive column :=
| ObjectCol (values : list string)
| Int64Col (values : list Z)
| Float64Col (values : list float).

(** The number of rows of a column. *)
Definition column_length (c : column) : nat :=
  match c with
  | ObjectCol v => length v
  | Int64Col v => length v
  | Float64Col v => length v
  end.

(** Columns in their order; [pd.DataFrame(d)] keeps the order of the keys
    of the dict [d]. The columns of a frame have the same number of rows. *)
Definition DataFrame : Type := list (string * column).

(** The output of a fitted transformer: one list of floats per output
    column. For a single-row input it is the feature vector. *)
Definition Features : Type := list (list float).

Module np.

(** Whether the integers of a column fit one integer dtype: all within
    [int64], or all within [uint64]. *)
Definition fits_integer_dtype (v : list Z) : bool :=
  forallb (λ z, (- 2 ^ 63 <=? z) && (z <? 2 ^ 63)) v
  || forallb (λ z, (0 <=? z) && (z <? 2 ^ 64)) v.

(** [np.sqrt(column)]: NaN for a negative number (a warning, no
    exception); an integer column is converted to float first; a column of
    strings has no square root, nor has a column of integers that fit no
    integer dtype, which pandas holds as objects. *)
Definition sqrt (c : column) : result column :=
  match c with
  | Float64Col v => Ok (Float64Col (SFsqrt prec emax <$> v))
  | Int64Col v =>
      if fits_integer_dtype v
      then Ok (Float64Col ((λ z, SFsqrt prec emax (float_of_int z)) <$> v))
      else Raise (Exn TypeError "loop of ufunc does not support argument 0 of type int which has no callable sqrt method")
  | ObjectCol _ =>
      Raise (Exn TypeError "loop of ufunc does not support argument 0 of type str which has no callable sqrt method")
  end.

(** [np.unique(values, return_inverse=True)]: the distinct values in
    increasing order, and for each input value its position among them. Of
    values that are equal ([0.0] and [-0.0]) the first one is kept. *)
Section Unique.
Context {A : Type} (leb eqb : A -> A -> bool).

Fixpoint insert_class (x : A) (classes : list A) : list A :=
  match classes with
  | [] => [x]
  | y :: rest =>
      if eqb x y then x :: rest
      else if leb x y then x :: classes
      else y :: insert_class x rest
  end.

Definition unique (values : list A) : list A :=
  foldr insert_class [] values.

Fixpoint position (x : A) (classes : list A) : Z :=
  match classes with
  | [] => 0
  | y :: rest => if eqb x y then 0 else 1 + position x rest
  end.

Definition unique_inverse (values : list A) : list A * list Z :=
  let classes := unique values in
  (classes, (λ x, position x classes) <$> values).
End Unique.

(** The order of floats in a sort: NaN last, and equal to itself. *)
Definition float_eqb (x y : float) : bool :=
  match x, y with
  | S754_nan, S754_nan => true
  | _, _ => SFeqb x y
  end.
Definition float_leb (x y : float) : bool :=
  match x, y with
  | _, S754_nan => true
  | S754_nan, _ => false
  | _, _ => SFleb x y
  end.

End np.

Module pd.

(** [data[name]], for a frame whose column names are distinct, as are
    those of every frame that [run] builds. (Where a name is repeated, pandas
    returns the frame of the columns of that name; such frames are outside
    this embedding, which takes the first of them.) *)
Fixpoint getitem (data : DataFrame) (name : string) : result column :=
  match data with
  | [] => Raise (Exn KeyError ("'" +:+ name +:+ "'"))
  | (n, c) :: rest => if String.eqb n name then Ok c else getitem rest name
  end.

(** [data[name] = c]: replaces the column of that name where it stands,
    or adds the column at the end. *)
Fixpoint setitem (data : DataFrame) (name : string) (c : column) : DataFrame :=
  match data with
  | [] => [(name, c)]
  | (n, c') :: rest =>
      if String.eqb n name then (n, c) :: rest
      else (n, c') :: setitem rest name c
  end.

Definition columns (data : DataFrame) : list string := fst <$> data.

(** The number of rows of a frame, which is that of its columns. *)
Definition rows (data : DataFrame) : nat :=
  match data with
  | [] => 0
  | (_, c) :: _ => column_length c
  end.

Definition has_column (data : DataFrame) (name : string) : bool :=
  existsb (String.eqb name) (columns data).

(** [data.drop(columns=[name])]: a new frame. *)
Definition drop (data : DataFrame) (name : string) : result DataFrame :=
  if has_column data name
  then Ok (List.filter (λ nc, negb (String.eqb nc.1 name)) data)
  else Raise (Exn KeyError ("['" +:+ name +:+ "'] not found in axis")).

(** [data[names]]: the listed columns, in the order listed. *)
Fixpoint select (data : DataFrame) (names : list string) : result DataFrame :=
  match names with
  | [] => Ok []
  | n :: rest =>
      and_then (getitem data n) (λ c,
      and_then (select data rest) (λ cs, Ok ((n, c) :: cs)))
  end.

(** A column as floats, as [np.hstack] makes it when it joins the
    outputs of several transformers. *)
Definition to_float (c : column) : result (list float) :=
  match c with
  | Float64Col v => Ok v
  | Int64Col v => Ok (float_of_int <$> v)
  | ObjectCol _ => Raise (Exn OtherException "could not convert string to float")
  end.

End pd.

(** ** scikit-learn's [LabelEncoder] *)

Module LabelEncoder.

(** The encoder's state is the classes it was last fitted on. *)
Record t := Build { classes_ : option column }.

(** [LabelEncoder()]: not fitted. *)
Definition new : t := Build None.

(** [encoder.fit_transform(y)]: fits on [y], replacing whatever the encoder
    was fitted on before, and returns the code of each value of [y]. *)
Definition fit_transform (self : t) (y : column) : t * column :=
  match y with
  | ObjectCol v =>
      let '(classes, codes) := np.unique_inverse String.leb String.eqb v in
      (Build (Some (ObjectCol classes)), Int64Col codes)
  | Int64Col v =>
      let '(classes, codes) := np.unique_inverse Z.leb Z.eqb v in
      (Build (Some (Int64Col classes)), Int64Col codes)
  | Float64Col v =>
      let '(classes, codes) := np.unique_inverse np.float_leb np.float_eqb v in
      (Build (Some (Float64Col classes)), Int64Col codes)
  end.

End LabelEncoder.

(** ** [class LabelEncoderTransformer] (lines 10-16) *)

Module LabelEncoderTransformer.

(** The attribute [encoder] exists once [fit] has run. *)
Record t := Build { encoder : option LabelEncoder.t }.

Definition fit (self : t) (X : DataFrame) : t :=
  Build (Some LabelEncoder.new).

(** [X.apply(self.encoder.fit_transform)]: the one encoder is fitted on
    each column in turn. *)
Fixpoint apply_fit_transform (enc : LabelEncoder.t) (X : DataFrame)
  : LabelEncoder.t * DataFrame :=
  match X with
  | [] => (enc, [])
  | (name, c) :: rest =>
      let '(enc1, c') := LabelEncoder.fit_transform enc c in
      let '(enc2, rest') := apply_fit_transform enc1 rest in
      (enc2, (name, c') :: rest')
  end.

(** [X.apply(...)] goes through the columns when the frame has rows. On a
    frame with no row or no column pandas calls the function on an empty
    column of floats instead, which refits the encoder on it; where the frame
    has columns, the empty codes do not make a result for them and [apply]
    raises. *)
Definition transform (self : t) (X : DataFrame) : t * result DataFrame :=
  match encoder self with
  | None =>
      (self, Raise (Exn AttributeError
         "'LabelEncoderTransformer' object has no attribute 'encoder'"))
  | Some enc =>
      match X with
      | [] =>
          (Build (Some (LabelEncoder.fit_transform enc (Float64Col [])).1), Ok [])
      | _ :: _ =>
          if (pd.rows X =? 0)%nat
          then (Build (Some (LabelEncoder.fit_transform enc (Float64Col [])).1),
                Raise (Exn ValueError
                   ("Length of values (0) does not match length of index ("
                    +:+ pretty (length X) +:+ ")")))
          else
            let '(enc', X') := apply_fit_transform enc X in
            (Build (Some enc'), Ok X')
      end
  end.

End LabelEncoderTransformer.

(** ** The two artifacts *)

Module Preprocessor.

(** Modelled from the spec: the layout of the pickled [preprocessor.pkl],
    which is not in the repository. The spec has the loaded transformer do
    categorical encoding and numeric scaling; the categorical encoding is
    the source's [LabelEncoderTransformer] (the class is defined in [DA.py]
    so that the pickle can be loaded), each other part is a fitted
    transformer whose [transform] reads its fitted parameters and changes
    nothing, taken as a function. The parts work on their own columns and
    their outputs are joined side by side. *)
Inductive part :=
| Categorical (enc : LabelEncoderTransformer.t)
| Fitted (f : DataFrame -> result Features).

Definition t : Type := list (list string * part).

Fixpoint to_features (X : DataFrame) : result Features :=
  match X with
  | [] => Ok []
  | (_, c) :: rest =>
      and_then (pd.to_float c) (λ v,
      and_then (to_features rest) (λ vs, Ok (v :: vs)))
  end.

Definition part_transform (p : part) (X : DataFrame) : part * result Features :=
  match p with
  | Categorical enc =>
      let '(enc', r) := LabelEncoderTransformer.transform enc X in
      (Categorical enc', and_then r to_features)
  | Fitted f => (p, f X)
  end.

(** Modelled from the spec: the loaded transformer's [transform]. Each
    part is applied to its columns of [X], in order, and the outputs are
    joined; the label encoders are left as the call refitted them. *)
Fixpoint transform (self : t) (X : DataFrame) : t * result Features :=
  match self with
  | [] => ([], Ok [])
  | (cols, p) :: rest =>
      match pd.select X cols with
      | Raise e => (self, Raise e)
      | Ok Xc =>
          let '(p', r) := part_transform p Xc in
          match r with
          | Raise e => ((cols, p') :: rest, Raise e)
          | Ok F =>
              let '(rest', r') := transform rest X in
              ((cols, p') :: rest', and_then r' (λ F', Ok (F ++ F')))
          end
      end
  end.

End Preprocessor.

(** A class label as the classifier returns it. *)
Inductive label :=
| LFloat (f : float)
| LInt (z : Z)
| LStr (s : string).

(** The classifier of [sleep_disorder_random_forest_model.pkl], which is not
    in the repository: [predict] is a function of the features, it may raise,
    and it returns an array of labels or [None]. *)
Record Classifier := { predict : Features -> result (option (list label)) }.

(** ** Streamlit, the files and the browser session *)

(** What the script does to the outside, in order: the Streamlit elements
    it writes (layout calls [st.form] and [st.columns] and the [help] texts
    are left out) and the calls it makes on the two artifacts. *)
Inductive event :=
| st_error (body : string)
| st_warning (body : string)
| st_markdown (body : string) (unsafe_allow_html : bool)
| st_spinner (text : string)
| st_selectbox (label : string) (options : list string)
| st_number_input (label : string) (min_value max_value : option Z) (value : Z)
| st_number_input_float (label : string) (min_value max_value : option float) (value : float)
| st_slider (label : string) (min_value max_value value : Z)
| st_form_submit_button (label : string)
| preprocessor_transform (X : DataFrame)
| model_predict (X : Features).

(** The state of the form, by widget label: what the user chose or entered
    ([None]: untouched, the widget has its default), and whether a button
    was pressed. Streamlit checks [min_value] and [max_value] in the
    browser. What its server does with a number that arrives outside the
    bounds of its [number_input] depends on the version, which the source
    does not fix: later versions reset it to the widget's default, earlier
    ones pass it on to the script; [resets_out_of_range] tells which. *)
Record Session := {
  chosen : string -> option string;
  entered : string -> option Z;
  entered_float : string -> option float;
  clicked : string -> bool;
  resets_out_of_range : bool
}.

(** Whether a value lies within the bounds a widget declares. *)
Definition within (min_value max_value : option Z) (v : Z) : bool :=
  from_option (λ lo, lo <=? v) true min_value
  && from_option (λ hi, v <=? hi) true max_value.

Definition within_float (min_value max_value : option float) (v : float) : bool :=
  from_option (λ lo, SFleb lo v) true min_value
  && from_option (λ hi, SFleb v hi) true max_value.

(** What a [number_input] returns: its default [value] when nothing was
    entered; what was entered when that lies within the bounds; and for an
    entry outside the bounds, the default or the entry, as the server has
    it. *)
Definition returned {A} (inside : A -> bool) (s : Session) (value : A)
    (entry : option A) : A :=
  match entry with
  | None => value
  | Some v => if inside v || negb (resets_out_of_range s) then v else value
  end.

(** A file of the working directory; [Unreadable e]: reading it raises [e]. *)
Inductive file (A : Type) :=
| Missing
| Unreadable (e : exn)
| Stored (content : A).
Arguments Missing {A}.
Arguments Unreadable {A} e.
Arguments Stored {A} content.

Record Env := {
  sleep_disorder_random_forest_model_pkl : file Classifier;
  preprocessor_pkl : file Preprocessor.t;
  Background_jpg : file string;     (* the base64 text of its bytes *)
  session : Session
}.

Definition joblib_load {A} (path : string) (f : file A) : result A :=
  match f with
  | Missing =>
      Raise (Exn FileNotFoundError
               ("[Errno 2] No such file or directory: '" +:+ path +:+ "'"))
  | Unreadable e => Raise e
  | Stored a => Ok a
  end.

(** ** [class SleepDisorderApp] *)

(** The attributes of [self]; [None]: not set yet. *)
Record SleepDisorderApp := {
  model : option Classifier;
  preprocessor : option Preprocessor.t;
  OCCUPATIONS : option (list string);
  BMI_CATEGORIES : option (list string);
  DISORDER_MAPPING : option (list (float * (string * string)))
}.

Definition new_app : SleepDisorderApp :=
  {| model := None; preprocessor := None; OCCUPATIONS := None;
     BMI_CATEGORIES := None; DISORDER_MAPPING := None |}.

(** A method: from [self] to the new [self], the events, and the value
    returned or the exception raised. *)
Definition script (A : Type) : Type :=
  SleepDisorderApp -> SleepDisorderApp * list event * result A.

Definition ret {A} (a : A) : script A := λ self, (self, [], Ok a).

Definition bind {A B} (m : script A) (k : A -> script B) : script B :=
  λ self,
    match m self with
    | (self1, tr1, Ok a) =>
        let '(self2, tr2, r) := k a self1 in (self2, tr1 ++ tr2, r)
    | (self1, tr1, Raise e) => (self1, tr1, Raise e)
    end.

Declare Scope script_scope.
Delimit Scope script_scope with script.
Notation "'let*' x ':=' m 'in' k" := (bind m (λ x, k))
  (at level 10, x pattern, m at level 100, k at level 200) : script_scope.
Local Open Scope script_scope.

Definition emit (e : event) : script unit := λ self, (self, [e], Ok tt).
Definition raise {A} (e : exn) : script A := λ self, (self, [], Raise e).
Definition lift {A} (r : result A) : script A := λ self, (self, [], r).

(** [self.name], an [AttributeError] when it was never set. *)
Definition getattr {A} (field : SleepDisorderApp -> option A) (name : string)
  : script A :=
  λ self,
    match field self with
    | Some a => (self, [], Ok a)
    | None =>
        (self, [], Raise (Exn AttributeError
           ("'SleepDisorderApp' object has no attribute '" +:+ name +:+ "'")))
    end.

Definition setattr (update : SleepDisorderApp -> SleepDisorderApp) : script unit :=
  λ self, (update self, [], Ok tt).

(** [try: body except C as e: handler e], where [catches] tells the
    exceptions of class [C]. What [body] did before it raised stays done. *)
Definition try_except {A} (body : script A) (catches : exn -> bool)
    (handler : exn -> script A) : script A :=
  λ self,
    match body self with
    | (self1, tr1, Raise e) =>
        if catches e
        then let '(self2, tr2, r) := handler e self1 in (self2, tr1 ++ tr2, r)
        else (self1, tr1, Raise e)
    | done => done
    end.

(** *** [load_models] (lines 24-30) *)

Definition set_model (m : Classifier) (self : SleepDisorderApp) : SleepDisorderApp :=
  {| model := Some m; preprocessor := preprocessor self;
     OCCUPATIONS := OCCUPATIONS self; BMI_CATEGORIES := BMI_CATEGORIES self;
     DISORDER_MAPPING := DISORDER_MAPPING self |}.

Definition set_preprocessor (p : Preprocessor.t) (self : SleepDisorderApp)
  : SleepDisorderApp :=
  {| model := model self; preprocessor := Some p;
     OCCUPATIONS := OCCUPATIONS self; BMI_CATEGORIES := BMI_CATEGORIES self;
     DISORDER_MAPPING := DISORDER_MAPPING self |}.

(** [st.stop()] ends the script run by raising. *)
Definition st_stop {A} : script A := raise (Exn StopException "").

Definition load_models (env : Env) : script unit :=
  try_except
    (let* m := lift (joblib_load "sleep_disorder_random_forest_model.pkl"
                       (sleep_disorder_random_forest_model_pkl env)) in
     let* _ := setattr (set_model m) in
     let* p := lift (joblib_load "preprocessor.pkl" (preprocessor_pkl env)) in
     setattr (set_preprocessor p))
    is_FileNotFoundError
    (λ e,
     let* _ := emit (st_error ("Error loading model files: " +:+ str e)) in
     st_stop).

(** *** [setup_constants] (lines 32-40) *)

Definition OCCUPATIONS_value : list string :=
  ["Others"; "Doctor"; "Teacher"; "Nurse"; "Engineer";
   "Accountant"; "Lawyer"; "Salesperson"].

Definition BMI_CATEGORIES_value : list string :=
  ["Normal Weight"; "Overweight"; "Obese"].

(** The dict literal, in the order of its keys [0.0], [1.0], [2.0]. *)
Definition DISORDER_MAPPING_value : list (float * (string * string)) :=
  [(float_lit 0 0, ("Insomnia", "red"));
   (float_lit 1 0, ("No Disorder", "green"));
   (float_lit 2 0, ("Sleep Apnea", "orange"))].

Definition setup_constants : script unit :=
  setattr (λ self,
    {| model := model self; preprocessor := preprocessor self;
       OCCUPATIONS := Some OCCUPATIONS_value;
       BMI_CATEGORIES := Some BMI_CATEGORIES_value;
       DISORDER_MAPPING := Some DISORDER_MAPPING_value |}).

(** *** [setup_style] and the style sheets (lines 42-110) *)

Definition get_common_styles : string :=
"
        .title {
            font-size: 40px;
            font-weight: bold;
            color: #1e90ff;
            text-align: center;
            margin-bottom: 2rem;
        }
        .stButton>button {
            background-color: #1e90ff;
            color: white;
            font-size: 16px;
            border-radius: 10px;
            width: 100%;
            transition: background-color 0.3s;
        }
        .stButton>button:hover {
            background-color: #4682b4;
        }
        .result-text {
            font-size: 24px;
            font-weight: bold;
            text-align: center;
            margin: 2rem 0;
        }
        .input-section {
            background-color: rgba(255, 255, 255, 0.9);
            padding: 2rem;
            border-radius: 10px;
            box-shadow: 0 4px 6px rgba(0, 0, 0, 0.1);
        }
        ".

Definition set_background_style (encoded_string : string) : script unit :=
  emit (st_markdown ("
        <style>
        body {
            background-image: url(" +:+ dq +:+ "data:image/jpeg;base64,"
    +:+ encoded_string +:+ dq +:+ ");
            background-size: cover;
            background-position: center;
            background-repeat: no-repeat;
        }
        " +:+ get_common_styles +:+ "
        </style>
        ") true).

Definition set_default_style : script unit :=
  emit (st_markdown ("
        <style>
        body {
            background-color: #f0f2f6;
        }
        " +:+ get_common_styles +:+ "
        </style>
        ") true).

Definition setup_style (env : Env) : script unit :=
  try_except
    (match Background_jpg env with
     | Missing => set_default_style
     | Unreadable e => raise e
     | Stored encoded_string => set_background_style encoded_string
     end)
    is_Exception
    (λ e,
     let* _ := emit (st_warning ("Could not load background image: " +:+ str e)) in
     set_default_style).

(** *** [__init__] (lines 19-22) *)

Definition init (env : Env) : script unit :=
  let* _ := load_models env in
  let* _ := setup_constants in
  setup_style env.

(** *** [preprocess_input] (lines 112-119) *)

(** [self.preprocessor.transform(data)]: the loaded object is the one that
    [self.preprocessor] names, so what the call changes in it stays. *)
Definition call_preprocessor (data : DataFrame) : script Features :=
  let* p := getattr preprocessor "preprocessor" in
  let* _ := emit (preprocessor_transform data) in
  λ self,
    let '(p', r) := Preprocessor.transform p data in
    (set_preprocessor p' self, [], r).

Definition preprocess_input (data : DataFrame) : script (option Features) :=
  try_except
    (let* hours := lift (pd.getitem data "Sleep Duration") in
     let* root := lift (np.sqrt hours) in
     let data := pd.setitem data "Sleep Duration Sqrt" root in
     let* data := lift (pd.drop data "Sleep Duration") in
     let* features := call_preprocessor data in
     ret (Some features))
    is_Exception
    (λ e,
     let* _ := emit (st_error ("Error in preprocessing: " +:+ str e)) in
     ret None).

(** *** [get_user_input] (lines 121-171) *)

Definition selectbox (s : Session) (label : string) (options : list string)
  : script string :=
  let* _ := emit (st_selectbox label options) in
  ret (default (default "" (head options)) (chosen s label)).

Definition number_input (s : Session) (label : string)
    (min_value max_value : option Z) (value : Z) : script Z :=
  let* _ := emit (st_number_input label min_value max_value value) in
  ret (returned (within min_value max_value) s value (entered s label)).

Definition number_input_float (s : Session) (label : string)
    (min_value max_value : option float) (value : float) : script float :=
  let* _ := emit (st_number_input_float label min_value max_value value) in
  ret (returned (within_float min_value max_value) s value (entered_float s label)).

Definition slider (s : Session) (label : string) (min_value max_value value : Z)
  : script Z :=
  let* _ := emit (st_slider label min_value max_value value) in
  ret (default value (entered s label)).

Definition form_submit_button (s : Session) (label : string) : script bool :=
  let* _ := emit (st_form_submit_button label) in
  ret (clicked s label).

(** The dict of one-element lists that [get_user_input] returns, each list
    with the dtype that [pd.DataFrame] gives its column. *)
Definition input_dict : Type := list (string * column).

Definition pd_DataFrame (d : input_dict) : DataFrame := d.

Definition get_user_input (s : Session) : script (bool * input_dict) :=
  let* gender := selectbox s "Gender" ["Male"; "Female"] in
  let* age := number_input s "Age" (Some 18) (Some 100) 30 in
  let* sleep_duration :=
    number_input_float s "Sleep Duration (hours)"
      (Some (float_lit 0 0)) (Some (float_lit 24 0)) (float_lit 15 (-1)) in
  let* occupations := getattr OCCUPATIONS "OCCUPATIONS" in
  let* occupation := selectbox s "Occupation" occupations in
  let* quality_of_sleep := slider s "Quality of Sleep" 1 10 7 in
  let* physical_activity :=
    number_input s "Physical Activity (minutes/day)" (Some 0) None 30 in
  let* stress_level := slider s "Stress Level" 1 10 5 in
  let* bmi_categories := getattr BMI_CATEGORIES "BMI_CATEGORIES" in
  let* bmi_category := selectbox s "BMI Category" bmi_categories in
  let* systolic := number_input s "Systolic Blood Pressure" (Some 70) (Some 200) 120 in
  let* diastolic := number_input s "Diastolic Blood Pressure" (Some 40) (Some 130) 80 in
  let* heart_rate := number_input s "Heart Rate (bpm)" (Some 40) (Some 200) 70 in
  let* daily_steps := number_input s "Daily Steps" (Some 0) (Some 50000) 10000 in
  let* submit_button := form_submit_button s "Predict Sleep Disorder" in
  ret (submit_button,
       [("Gender", ObjectCol [gender]);
        ("Age", Int64Col [age]);
        ("Sleep Duration", Float64Col [sleep_duration]);
        ("Occupation", ObjectCol [occupation]);
        ("Quality of Sleep", Int64Col [quality_of_sleep]);
        ("Physical Activity Level", Int64Col [physical_activity]);
        ("Stress Level", Int64Col [stress_level]);
        ("BMI Category", ObjectCol [bmi_category]);
        ("Systolic", Int64Col [systolic]);
        ("Diastolic", Int64Col [diastolic]);
        ("Heart Rate", Int64Col [heart_rate]);
        ("Daily Steps", Int64Col [daily_steps])]).

(** *** [display_recommendations] (lines 183-208) *)

Definition recommendations : gmap string (list string) :=
  list_to_map
    [("Insomnia",
      ["Maintain a consistent sleep schedule";
       "Create a relaxing bedtime routine";
       "Avoid screens before bedtime";
       "Consider consulting a sleep specialist"]);
     ("Sleep Apnea",
      ["Sleep on your side instead of your back";
       "Maintain a healthy weight";
       "Consider using a CPAP machine";
       "Consult a healthcare provider for proper diagnosis"]);
     ("No Disorder",
      ["Continue maintaining good sleep habits";
       "Stay physically active";
       "Monitor sleep quality regularly";
       "Practice stress management"])].

Fixpoint for_each {A} (items : list A) (body : A -> script unit) : script unit :=
  match items with
  | [] => ret tt
  | x :: rest => let* _ := body x in for_each rest body
  end.

Definition display_recommendations (disorder : string) : script unit :=
  match recommendations !! disorder with
  | Some recs =>
      let* _ := emit (st_markdown "### Recommendations:" false) in
      for_each recs (λ rec, emit (st_markdown ("- " +:+ rec) false))
  | None => ret tt
  end.

(** *** [display_prediction] (lines 173-181) *)

(** Python's [==] between a label and a float key of the dict: numbers are
    compared by value ([-0.0 == 0.0], [1 == 1.0], NaN equals nothing), a
    string equals no number. Equal numbers have equal hashes. *)
Definition key_eqb (l : label) (key : float) : bool :=
  match l with
  | LFloat f => SFeqb f key
  | LInt z =>
      match float_to_int key with
      | Some z' => z =? z'
      | None => false
      end
  | LStr _ => false
  end.

(** [d.get(key, default)]. *)
Fixpoint dict_get {V} (d : list (float * V)) (key : label) (default : V) : V :=
  match d with
  | [] => default
  | (k, v) :: rest => if key_eqb key k then v else dict_get rest key default
  end.

(** [prediction[0]]. *)
Definition first_label (prediction : list label) : result label :=
  match prediction with
  | l :: _ => Ok l
  | [] => Raise (Exn IndexError "index 0 is out of bounds for axis 0 with size 0")
  end.

Definition display_prediction (prediction : option (list label)) : script unit :=
  match prediction with
  | Some prediction =>
      let* mapping := getattr DISORDER_MAPPING "DISORDER_MAPPING" in
      let* l := lift (first_label prediction) in
      let '(disorder, color) := dict_get mapping l ("Unknown", "gray") in
      let* _ :=
        emit (st_markdown "<div class='result-text'>Prediction Result</div>" true) in
      let* _ :=
        emit (st_markdown
                ("<p style=" +:+ dq +:+ "color:" +:+ color
                 +:+ ";font-size:24px;text-align:center;"
                 +:+ "font-weight:bold;" +:+ dq +:+ ">" +:+ disorder +:+ "</p>")
                true) in
      display_recommendations disorder
  | None => ret tt
  end.

(** *** [run] (lines 210-225) and the script's entry (lines 227-229) *)

Definition call_model (features : Features) : script (option (list label)) :=
  let* m := getattr model "model" in
  let* _ := emit (model_predict features) in
  lift (predict m features).

Definition run (s : Session) : script unit :=
  let* _ :=
    emit (st_markdown
            ("<p class=" +:+ dq +:+ "title" +:+ dq +:+ ">Sleep Disorder Detection</p>")
            true) in
  let* (submit_button, input_data) := get_user_input s in
  if submit_button : bool then
    let* _ := emit (st_spinner "Analyzing sleep patterns...") in
    let input_df := pd_DataFrame input_data in
    let* processed_data := preprocess_input input_df in
    match processed_data with
    | Some features =>
        try_except
          (let* prediction := call_model features in
           display_prediction prediction)
          is_Exception
          (λ e, emit (st_error ("Error making prediction: " +:+ str e)))
    | None => ret tt
    end
  else ret tt.

(** [app = SleepDisorderApp(); app.run()], one run of the script. *)
Definition main (env : Env) : SleepDisorderApp * list event * result unit :=
  (let* _ := init env in run (session env)) new_app.

(** ** Notions used to state the properties *)

(** The label lookup of [display_prediction] (line 175) on the table that
    [setup_constants] installs. *)
Definition mapResult (l : label) : string * string :=
  dict_get DISORDER_MAPPING_value l ("Unknown", "gray").

(** [self] once [setup_constants] has run. *)
Definition with_constants (self : SleepDisorderApp) : SleepDisorderApp :=
  (setup_constants self).1.1.

(** The paragraph that shows the disorder's name in its colour (lines
    178-179). *)
Definition result_paragraph (disorder color : string) : string :=
  "<p style=" +:+ dq +:+ "color:" +:+ color
  +:+ ";font-size:24px;text-align:center;"
  +:+ "font-weight:bold;" +:+ dq +:+ ">" +:+ disorder +:+ "</p>".

(** The events of a trace that are calls of the classifier, and those that
    are calls of the loaded transformer. *)
Definition predict_calls (tr : list event) : list Features :=
  omap (λ e, match e with model_predict X => Some X | _ => None end) tr.

Definition transform_calls (tr : list event) : list DataFrame :=
  omap (λ e, match e with preprocessor_transform X => Some X | _ => None end) tr.

(** The events of [display_recommendations], which reads nothing of
    [self]: a header and one line per entry, or nothing. *)
Definition recommendation_events (disorder : string) : list event :=
  match recommendations !! disorder with
  | Some recs =>
      st_markdown "### Recommendations:" false
      :: ((λ rec, st_markdown ("- " +:+ rec) false) <$> recs)
  | None => []
  end.

(** Frames of one row, as [run] makes them from one submission of the
    form. *)
Definition single_row (X : DataFrame) : Prop :=
  Forall (λ nc, column_length nc.2 = 1%nat) X.

(** The frame with the columns of [X], each holding the one code [0]. *)
Definition zeros (X : DataFrame) : DataFrame :=
  (λ nc, (nc.1, Int64Col [0])) <$> X.

(** A preprocessor with the classes of its label encoders forgotten: what
    is left is its layout, whether each encoder has been through [fit], and
    the fitted functions. *)
Definition forget_encoder (enc : LabelEncoderTransformer.t)
  : LabelEncoderTransformer.t :=
  LabelEncoderTransformer.Build
    ((λ _, LabelEncoder.new) <$> LabelEncoderTransformer.encoder enc).

Definition forget_part (p : Preprocessor.part) : Preprocessor.part :=
  match p with
  | Preprocessor.Categorical enc => Preprocessor.Categorical (forget_encoder enc)
  | Preprocessor.Fitted f => Preprocessor.Fitted f
  end.

Definition forget (self : Preprocessor.t) : Preprocessor.t :=
  (λ cp, (cp.1, forget_part cp.2)) <$> self.

(** Two states of [self] whose loaded preprocessors differ at most in the
    classes their label encoders were last fitted on. *)
Definition same_artifacts (self self' : SleepDisorderApp) : Prop :=
  forget <$> preprocessor self = forget <$> preprocessor self'.

(** The frame that lines 114-115 make of [data]: the square root of the
    column "Sleep Duration" stored as "Sleep Duration Sqrt", then the column
    "Sleep Duration" dropped. *)
Definition derived_frame (data : DataFrame) : result DataFrame :=
  and_then (pd.getitem data "Sleep Duration") (λ hours,
  and_then (np.sqrt hours) (λ root,
  pd.drop (pd.setitem data "Sleep Duration Sqrt" root) "Sleep Duration")).

(** What the handler of [preprocess_input] makes of an exception [e] of
    the body: an error message and [None] when [e] is an [Exception]. *)
Definition handled (e : exn) : list event * result (option Features) :=
  if is_Exception e
  then ([st_error ("Error in preprocessing: " +:+ str e)], Ok None)
  else ([], Raise e).

(** The dict of one submission of the form, as lines 158-171 build it. *)
Definition submission (gender : string) (age : Z) (sleep_duration : float)
    (occupation : string) (quality_of_sleep physical_activity stress_level : Z)
    (bmi_category : string) (systolic diastolic heart_rate daily_steps : Z)
  : input_dict :=
  [("Gender", ObjectCol [gender]);
   ("Age", Int64Col [age]);
   ("Sleep Duration", Float64Col [sleep_duration]);
   ("Occupation", ObjectCol [occupation]);
   ("Quality of Sleep", Int64Col [quality_of_sleep]);
   ("Physical Activity Level", Int64Col [physical_activity]);
   ("Stress Level", Int64Col [stress_level]);
   ("BMI Category", ObjectCol [bmi_category]);
   ("Systolic", Int64Col [systolic]);
   ("Diastolic", Int64Col [diastolic]);
   ("Heart Rate", Int64Col [heart_rate]);
   ("Daily Steps", Int64Col [daily_steps])].

(** The same submission as lines 114-115 leave it: the other eleven fields
    in their order, then the square root of the hours. *)
Definition submission_sqrt (gender : string) (age : Z) (sleep_duration : float)
    (occupation : string) (quality_of_sleep physical_activity stress_level : Z)
    (bmi_category : string) (systolic diastolic heart_rate daily_steps : Z)
  : DataFrame :=
  [("Gender", ObjectCol [gender]);
   ("Age", Int64Col [age]);
   ("Occupation", ObjectCol [occupation]);
   ("Quality of Sleep", Int64Col [quality_of_sleep]);
   ("Physical Activity Level", Int64Col [physical_activity]);
   ("Stress Level", Int64Col [stress_level]);
   ("BMI Category", ObjectCol [bmi_category]);
   ("Systolic", Int64Col [systolic]);
   ("Diastolic", Int64Col [diastolic]);
   ("Heart Rate", Int64Col [heart_rate]);
   ("Daily Steps", Int64Col [daily_steps]);
   ("Sleep Duration Sqrt", Float64Col [SFsqrt prec emax sleep_duration])].

(** What the widgets of the form return in a session. *)
Definition session_submission (s : Session) (occupations bmi_categories : list string)
  : input_dict :=
  submission
    (default (default "" (head ["Male"; "Female"])) (chosen s "Gender"))
    (returned (within (Some 18) (Some 100)) s 30 (entered s "Age"))
    (returned (within_float (Some (float_lit 0 0)) (Some (float_lit 24 0))) s
       (float_lit 15 (-1)) (entered_float s "Sleep Duration (hours)"))
    (default (default "" (head occupations)) (chosen s "Occupation"))
    (default 7 (entered s "Quality of Sleep"))
    (returned (within (Some 0) None) s 30
       (entered s "Physical Activity (minutes/day)"))
    (default 5 (entered s "Stress Level"))
    (default (default "" (head bmi_categories)) (chosen s "BMI Category"))
    (returned (within (Some 70) (Some 200)) s 120
       (entered s "Systolic Blood Pressure"))
    (returned (within (Some 40) (Some 130)) s 80
       (entered s "Diastolic Blood Pressure"))
    (returned (within (Some 40) (Some 200)) s 70 (entered s "Heart Rate (bpm)"))
    (returned (within (Some 0) (Some 50000)) s 10000 (entered s "Daily Steps")).

(** The widgets that [get_user_input] declares, in order. *)
Definition form_widgets (occupations bmi_categories : list string) : list event :=
  [st_selectbox "Gender" ["Male"; "Female"];
   st_number_input "Age" (Some 18) (Some 100) 30;
   st_number_input_float "Sleep Duration (hours)"
     (Some (float_lit 0 0)) (Some (float_lit 24 0)) (float_lit 15 (-1));
   st_selectbox "Occupation" occupations;
   st_slider "Quality of Sleep" 1 10 7;
   st_number_input "Physical Activity (minutes/day)" (Some 0) None 30;
   st_slider "Stress Level" 1 10 5;
   st_selectbox "BMI Category" bmi_categories;
   st_number_input "Systolic Blood Pressure" (Some 70) (Some 200) 120;
   st_number_input "Diastolic Blood Pressure" (Some 40) (Some 130) 80;
   st_number_input "Heart Rate (bpm)" (Some 40) (Some 200) 70;
   st_number_input "Daily Steps" (Some 0) (Some 50000) 10000;
   st_form_submit_button "Predict Sleep Disorder"].

(** The guarded call of the classifier in [run] (lines 221-225). *)
Definition predict_and_display (features : Features) : script unit :=
  try_except
    (let* prediction := call_model features in
     display_prediction prediction)
    is_Exception
    (λ e, emit (st_error ("Error making prediction: " +:+ str e))).

(** A session respects a widget when what was entered for it lies within
    the bounds the widget declares, and what was chosen is one of its
    options; this is what Streamlit checks in the browser. *)
Definition respects (s : Session) (w : event) : bool :=
  match w with
  | st_number_input label lo hi _ =>
      from_option (within lo hi) true (entered s label)
  | st_number_input_float label lo hi _ =>
      from_option (within_float lo hi) true (entered_float s label)
  | st_slider label lo hi _ =>
      from_option (within (Some lo) (Some hi)) true (entered s label)
  | st_selectbox label options =>
      from_option (λ c, existsb (String.eqb c) options) true (chosen s label)
  | _ => true
  end.

Definition browser_checked (s : Session) (widgets : list event) : Prop :=
  Forall (λ w, respects s w = true) widgets.

(** The ranges of the numeric fields. *)
Definition in_ranges (age : Z) (sleep_duration : float)
    (quality_of_sleep physical_activity stress_level
     systolic diastolic heart_rate daily_steps : Z) : Prop :=
  18 <= age <= 100
  ∧ SFleb (float_lit 0 0) sleep_duration = true
  ∧ SFleb sleep_duration (float_lit 24 0) = true
  ∧ 1 <= quality_of_sleep <= 10
  ∧ 0 <= physical_activity
  ∧ 1 <= stress_level <= 10
  ∧ 70 <= systolic <= 200
  ∧ 40 <= diastolic <= 130
  ∧ 40 <= heart_rate <= 200
  ∧ 0 <= daily_steps <= 50000.

(** Whether an event is an error message. *)
Definition is_error (e : event) : bool :=
  match e with st_error _ => true | _ => false end.

(** Sessions, artifacts and environments for examples. *)
Definition untouched : Session :=
  {| chosen := λ _, None; entered := λ _, None; entered_float := λ _, None;
     clicked := λ _, true; resets_out_of_range := true |}.

(** 17 entered as the age, and the form submitted, with a server that
    resets the entry and with one that passes it on. *)
Definition age_17 : Session :=
  {| chosen := λ _, None;
     entered := λ label, if String.eqb label "Age" then Some 17 else None;
     entered_float := λ _, None;
     clicked := λ _, true; resets_out_of_range := true |}.

Definition age_17_passed_on : Session :=
  {| chosen := λ _, None;
     entered := λ label, if String.eqb label "Age" then Some 17 else None;
     entered_float := λ _, None;
     clicked := λ _, true; resets_out_of_range := false |}.

(** A form in which every widget was set, to values within its bounds. *)
Definition filled : Session :=
  {| chosen := λ label,
       if String.eqb label "Gender" then Some "Female"
       else if String.eqb label "Occupation" then Some "Nurse"
       else if String.eqb label "BMI Category" then Some "Obese"
       else None;
     entered := λ label,
       if String.eqb label "Age" then Some 45
       else if String.eqb label "Quality of Sleep" then Some 4
       else if String.eqb label "Physical Activity (minutes/day)" then Some 60
       else if String.eqb label "Stress Level" then Some 8
       else if String.eqb label "Systolic Blood Pressure" then Some 135
       else if String.eqb label "Diastolic Blood Pressure" then Some 85
       else if String.eqb label "Heart Rate (bpm)" then Some 72
       else if String.eqb label "Daily Steps" then Some 4000
       else None;
     entered_float := λ label,
       if String.eqb label "Sleep Duration (hours)"
       then Some (float_lit 13 (-1)) else None;
     clicked := λ _, true; resets_out_of_range := false |}.

Definition example_preprocessor : Preprocessor.t :=
  [(["Gender"; "Occupation"; "BMI Category"],
    Preprocessor.Categorical (LabelEncoderTransformer.Build (Some LabelEncoder.new)));
   (["Age"; "Quality of Sleep"; "Physical Activity Level"; "Stress Level";
     "Systolic"; "Diastolic"; "Heart Rate"; "Daily Steps"; "Sleep Duration Sqrt"],
    Preprocessor.Fitted Preprocessor.to_features)].

(** A preprocessor fitted on a column that the form does not have. *)
Definition stale_preprocessor : Preprocessor.t :=
  [(["Sleep Duration"], Preprocessor.Fitted Preprocessor.to_features)].

Definition example_model : Classifier :=
  {| predict := λ _, Ok (Some [LFloat (float_lit 1 0)]) |}.

Definition example_app (p : Preprocessor.t) : SleepDisorderApp :=
  set_preprocessor p (set_model example_model (with_constants new_app)).

Definition example_env (model_file : file Classifier)
    (preprocessor_file : file Preprocessor.t) : Env :=
  {| sleep_disorder_random_forest_model_pkl := model_file;
     preprocessor_pkl := preprocessor_file;
     Background_jpg := Missing;
     session := untouched |}.

(** What [load_models] makes of an exception [e] of a load: the error
    message and [st.stop()] when [e] is a [FileNotFoundError]; any other
    exception goes through. *)
Definition load_failure (e : exn) : list event * result unit :=
  if is_FileNotFoundError e
  then ([st_error ("Error loading model files: " +:+ str e)],
        Raise (Exn StopException ""))
  else ([], Raise e).

(** A column of codes for the column [c]: as many integers as [c] has
    rows, each a valid index below the number of rows. *)
Definition encoded_like (c c' : column) : Prop :=
  ∃ codes, c' = Int64Col codes
           ∧ length codes = column_length c
           ∧ Forall (λ code, 0 <= code < Z.of_nat (column_length c)) codes.

(** The first thing [run] writes (line 211). *)
Definition run_title : event :=
  st_markdown
    ("<p class=" +:+ dq +:+ "title" +:+ dq +:+ ">Sleep Disorder Detection</p>")
    true.

(** The record of a session as lines 114-115 leave it. *)
Definition session_submission_sqrt (s : Session)
    (occupations bmi_categories : list string) : DataFrame :=
  submission_sqrt
    (default (default "" (head ["Male"; "Female"])) (chosen s "Gender"))
    (returned (within (Some 18) (Some 100)) s 30 (entered s "Age"))
    (returned (within_float (Some (float_lit 0 0)) (Some (float_lit 24 0))) s
       (float_lit 15 (-1)) (entered_float s "Sleep Duration (hours)"))
    (default (default "" (head occupations)) (chosen s "Occupation"))
    (default 7 (entered s "Quality of Sleep"))
    (returned (within (Some 0) None) s 30
       (entered s "Physical Activity (minutes/day)"))
    (default 5 (entered s "Stress Level"))
    (default (default "" (head bmi_categories)) (chosen s "BMI Category"))
    (returned (within (Some 70) (Some 200)) s 120
       (entered s "Systolic Blood Pressure"))
    (returned (within (Some 40) (Some 130)) s 80
       (entered s "Diastolic Blood Pressure"))
    (returned (within (Some 40) (Some 200)) s 70 (entered s "Heart Rate (bpm)"))
    (returned (within (Some 0) (Some 50000)) s 10000 (entered s "Daily Steps")).

(** What [display_prediction] writes for a label, given the table. *)
Definition prediction_events (mapping : list (float * (string * string)))
    (l : label) : list event :=
  let '(disorder, color) := dict_get mapping l ("Unknown", "gray") in
  st_markdown "<div class='result-text'>Prediction Result</div>" true
  :: st_markdown (result_paragraph disorder color) true
  :: recommendation_events disorder.

(** A session in which the form was not submitted, and a classifier that
    answers every call alike. *)
Definition not_submitted : Session :=
  {| chosen := λ _, None; entered := λ _, None; entered_float := λ _, None;
     clicked := λ _, false; resets_out_of_range := true |}.

Definition constant_model (answer : result (option (list label))) : Classifier :=
  {| predict := λ _, answer |}.

Definition app_with (m : Classifier) (p : Preprocessor.t) : SleepDisorderApp :=
  set_preprocessor p (set_model m (with_constants new_app)).

(** The features that [example_preprocessor] makes of the untouched form. *)
Definition example_features : Features :=
  [[float_lit 0 0]; [float_lit 0 0]; [float_lit 0 0];
   [float_lit 30 0]; [float_lit 7 0]; [float_lit 30 0]; [float_lit 5 0];
   [float_lit 120 0]; [float_lit 80 0]; [float_lit 70 0]; [float_lit 10000 0];
   [SFsqrt prec emax (float_lit 15 (-1))]].

(** [example_preprocessor] after a call on a one-row form: its encoder
    was last fitted on the column "BMI Category". *)
Definition example_preprocessor_after : Preprocessor.t :=
  (Preprocessor.transform example_preprocessor
     (session_submission_sqrt untouched OCCUPATIONS_value BMI_CATEGORIES_value)).1.

(** A style sheet that ends with the common styles, as both
    [set_background_style] and [set_default_style] write it. *)
Definition is_style_sheet (e : event) : Prop :=
  ∃ head,
    e = st_markdown (head +:+ get_common_styles +:+ "
        </style>
        ") true.

(** An environment whose background image cannot be read. *)
Definition unreadable_background_env : Env :=
  {| sleep_disorder_random_forest_model_pkl := Stored example_model;
     preprocessor_pkl := Stored example_preprocessor;
     Background_jpg := Unreadable (Exn OtherException "Permission denied");
     session := untouched |}.

(** Unfolding the widgets of the form. *)
Ltac unfold_form :=
  unfold get_user_input, selectbox, number_input, number_input_float, slider,
    form_submit_button, bind, getattr, emit, ret.

(** * Properties *)

(** ** Equality of floats *)

(** Two floats are equal, as [==] has it, when they are the same float or
    both are zeros. *)
Lemma SFeqb_true (f g : float) :
  SFeqb f g = true →
  f = g ∨ ∃ s s', f = S754_zero s ∧ g = S754_zero s'.
Proof.
  unfold SFeqb, SFcompare.
  destruct f as [s|s| |s m e], g as [s'|s'| |s' m' e']; intros H;
    try discriminate H; try (by right; eauto).
  all: try (destruct s, s'; try discriminate H; by left).
  all: try (destruct s; discriminate H).
  all: try (destruct s'; discriminate H).
  left.
  change (PosDef.Pos.compare_cont Eq m m') with (Pos.compare m m') in H.
  destruct s, s'; try discriminate H;
    destruct (Z.compare_spec e e') as [->| |]; try discriminate H;
    destruct (Pos.compare_spec m m') as [->| |]; try discriminate H;
    reflexivity.
Qed.

Lemma float_eqb_true (x y : float) :
  np.float_eqb x y = true →
  x = y ∨ ∃ s s', x = S754_zero s ∧ y = S754_zero s'.
Proof.
  destruct x as [s|s| |s m e], y as [s'|s'| |s' m' e'];
    try apply SFeqb_true; by left.
Qed.

Lemma float_eqb_join (x y z : float) :
  np.float_eqb x y = true → np.float_eqb z y = true → np.float_eqb z x = true.
Proof.
  intros [->|(s & s' & -> & ->)]%float_eqb_true; [done|].
  intros [->|(t & t' & -> & _)]%float_eqb_true; reflexivity.
Qed.

(** ** The result mapper *)

Lemma with_constants_mapping self :
  DISORDER_MAPPING (with_constants self) = Some DISORDER_MAPPING_value.
Proof. reflexivity. Qed.

Lemma display_recommendations_state disorder self :
  ∃ tr, display_recommendations disorder self = (self, tr, Ok tt) ∧
        predict_calls tr = [] ∧ transform_calls tr = [].
Proof.
  unfold display_recommendations.
  destruct (recommendations !! disorder) as [recs|]; [|by eexists].
  assert (Hloop : ∀ self, ∃ tr,
    for_each recs (λ rec, emit (st_markdown ("- " +:+ rec) false)) self
      = (self, tr, Ok tt) ∧ predict_calls tr = [] ∧ transform_calls tr = []).
  { induction recs as [|rec recs IH]; intros self0; [by eexists|].
    destruct (IH self0) as (tr & Htr & Hp & Ht).
    cbn [for_each]. unfold bind at 1, emit at 1. cbv beta iota.
    eexists. rewrite Htr. split; [reflexivity|]. by split. }
  destruct (Hloop self) as (tr & Htr & Hp & Ht).
  unfold bind at 1, emit at 1. cbv beta iota.
  eexists. rewrite Htr. split; [reflexivity|]. by split.
Qed.

(** C1. The label lookup of [display_prediction] is total, and its result
    is taken from the fixed table: the labels [0.0], [1.0] and [2.0] give
    ("Insomnia", "red"), ("No Disorder", "green") and ("Sleep Apnea",
    "orange"); every other float (one that is not a zero, [1.0] or [2.0]),
    every integer other than 0, 1 and 2, and every string gives ("Unknown",
    "gray"); whatever the label, the result is one of these four pairs, and
    with the constants set up [display_prediction] shows that pair and
    returns without raising. *)
Theorem mapResult_total (l : label) :
  mapResult (LFloat (float_lit 0 0)) = ("Insomnia", "red")
  ∧ mapResult (LFloat (float_lit 1 0)) = ("No Disorder", "green")
  ∧ mapResult (LFloat (float_lit 2 0)) = ("Sleep Apnea", "orange")
  ∧ (∀ f : float,
       (∀ sign, f ≠ S754_zero sign) → f ≠ float_lit 1 0 → f ≠ float_lit 2 0 →
       mapResult (LFloat f) = ("Unknown", "gray"))
  ∧ (∀ z, z ≠ 0 → z ≠ 1 → z ≠ 2 → mapResult (LInt z) = ("Unknown", "gray"))
  ∧ (∀ s, mapResult (LStr s) = ("Unknown", "gray"))
  ∧ mapResult l ∈ [("Insomnia", "red"); ("No Disorder", "green");
                   ("Sleep Apnea", "orange"); ("Unknown", "gray")]
  ∧ mapResult l =
      (if key_eqb l (float_lit 0 0) then ("Insomnia", "red")
       else if key_eqb l (float_lit 1 0) then ("No Disorder", "green")
       else if key_eqb l (float_lit 2 0) then ("Sleep Apnea", "orange")
       else ("Unknown", "gray"))
  ∧ ((∀ key, key ∈ DISORDER_MAPPING_value.*1 → key_eqb l key = false) →
     mapResult l = ("Unknown", "gray"))
  ∧ ∀ self rest, ∃ tr,
      display_prediction (Some (l :: rest)) (with_constants self)
      = (with_constants self,
         st_markdown "<div class='result-text'>Prediction Result</div>" true
         :: st_markdown (result_paragraph (mapResult l).1 (mapResult l).2) true
         :: tr,
         Ok tt).
Proof.
  do 3 (split; [reflexivity|]).
  split.
  { intros f Hzero Hone Htwo.
    unfold mapResult, DISORDER_MAPPING_value. cbn [dict_get key_eqb].
    destruct (SFeqb f (float_lit 0 0)) eqn:H0.
    { apply SFeqb_true in H0 as [->|(s & s' & -> & _)];
        [by destruct (Hzero false)|by destruct (Hzero s)]. }
    destruct (SFeqb f (float_lit 1 0)) eqn:H1.
    { apply SFeqb_true in H1 as [->|(s & s' & _ & Hkey)];
        [by destruct Hone|discriminate Hkey]. }
    destruct (SFeqb f (float_lit 2 0)) eqn:H2; [|reflexivity].
    apply SFeqb_true in H2 as [->|(s & s' & _ & Hkey)];
      [by destruct Htwo|discriminate Hkey]. }
  split.
  { intros z Hzero Hone Htwo.
    unfold mapResult, DISORDER_MAPPING_value. cbn [dict_get key_eqb].
    change (float_to_int (float_lit 0 0)) with (Some 0).
    change (float_to_int (float_lit 1 0)) with (Some 1).
    change (float_to_int (float_lit 2 0)) with (Some 2).
    cbn match.
    by rewrite (proj2 (Z.eqb_neq z 0) Hzero), (proj2 (Z.eqb_neq z 1) Hone),
               (proj2 (Z.eqb_neq z 2) Htwo). }
  split; [reflexivity|].
  split.
  { unfold mapResult, DISORDER_MAPPING_value. cbn [dict_get].
    destruct (key_eqb l (float_lit 0 0)); [set_solver|].
    destruct (key_eqb l (float_lit 1 0)); [set_solver|].
    destruct (key_eqb l (float_lit 2 0)); set_solver. }
  split; [reflexivity|]. split.
  - intros Hout. unfold mapResult, DISORDER_MAPPING_value. cbn [dict_get].
    rewrite !Hout; [reflexivity| |  |]; cbn; set_solver.
  - intros self rest.
    destruct (display_recommendations_state (mapResult l).1 (with_constants self))
      as (tr & Htr & _).
    exists tr. unfold display_prediction, bind, getattr, lift, emit.
    rewrite with_constants_mapping. cbn [first_label].
    fold (mapResult l). destruct (mapResult l) as [disorder color].
    cbn [fst snd] in *. rewrite Htr. reflexivity.
Qed.

Lemma mapResult_total_witness :
  mapResult (LFloat (float_lit 3 0)) = ("Unknown", "gray")
  ∧ mapResult (LInt 7) = ("Unknown", "gray")
  ∧ mapResult (LFloat S754_nan) = ("Unknown", "gray").
Proof.
  pose proof (mapResult_total (LFloat S754_nan))
    as (_ & _ & _ & Hfloat & Hint & _ & _ & _ & Hkeys & _).
  split; [|split].
  - apply Hfloat; discriminate.
  - apply Hint; lia.
  - apply Hkeys. intros key Hkey.
    repeat (apply elem_of_cons in Hkey as [->|Hkey]; [reflexivity|]).
    by apply elem_of_nil in Hkey.
Defined.

Example mapResult_negative_zero :
  mapResult (LFloat (S754_zero true)) = ("Insomnia", "red").
Proof. reflexivity. Qed.

Example mapResult_int_label : mapResult (LInt 2) = ("Sleep Apnea", "orange").
Proof. reflexivity. Qed.

Example mapResult_other_labels :
  mapResult (LFloat (float_lit 3 0)) = ("Unknown", "gray")
  ∧ mapResult (LFloat (float_lit 3 (-1))) = ("Unknown", "gray")
  ∧ mapResult (LInt (-1)) = ("Unknown", "gray")
  ∧ mapResult (LStr "1.0") = ("Unknown", "gray").
Proof. repeat split. Qed.

Lemma for_each_emit {A} (items : list A) (f : A -> event) self :
  for_each items (λ x, emit (f x)) self = (self, f <$> items, Ok tt).
Proof.
  induction items as [|x items IH]; [reflexivity|].
  cbn [for_each]. unfold bind at 1, emit at 1. cbv beta iota.
  rewrite IH. reflexivity.
Qed.

Lemma display_recommendations_events disorder self :
  display_recommendations disorder self
  = (self, recommendation_events disorder, Ok tt).
Proof.
  unfold display_recommendations, recommendation_events.
  destruct (recommendations !! disorder) as [recs|]; [|reflexivity].
  unfold bind at 1, emit at 1. cbv beta iota.
  rewrite (for_each_emit recs (λ rec, st_markdown ("- " +:+ rec) false)).
  reflexivity.
Qed.

(** C6, as the specification states it, fails: the table does not hold
    three entries for "Insomnia". *)
Lemma recommendations_not_three_entries :
  ¬ (∀ disorder,
       disorder ∈ ["Insomnia"; "Sleep Apnea"; "No Disorder"] →
       length <$> recommendations !! disorder = Some 3%nat).
Proof.
  intros H. specialize (H "Insomnia" ltac:(set_solver)).
  vm_compute in H. discriminate H.
Qed.

(** C6, amended. The recommendations are a fixed table from the disorder's
    name to an ordered list of exactly four guidance texts for each of
    "Insomnia", "Sleep Apnea" and "No Disorder"; "Unknown" has no entry, and
    for it nothing is displayed. What is displayed depends on the name
    alone. *)
Theorem recommendations_four_entries :
  recommendations !! "Insomnia"
    = Some ["Maintain a consistent sleep schedule";
            "Create a relaxing bedtime routine";
            "Avoid screens before bedtime";
            "Consider consulting a sleep specialist"]
  ∧ recommendations !! "Sleep Apnea"
    = Some ["Sleep on your side instead of your back";
            "Maintain a healthy weight";
            "Consider using a CPAP machine";
            "Consult a healthcare provider for proper diagnosis"]
  ∧ recommendations !! "No Disorder"
    = Some ["Continue maintaining good sleep habits";
            "Stay physically active";
            "Monitor sleep quality regularly";
            "Practice stress management"]
  ∧ length <$> recommendations !! "Insomnia" = Some 4%nat
  ∧ length <$> recommendations !! "Sleep Apnea" = Some 4%nat
  ∧ length <$> recommendations !! "No Disorder" = Some 4%nat
  ∧ recommendations !! "Unknown" = None
  ∧ (∀ self, display_recommendations "Unknown" self = (self, [], Ok tt))
  ∧ ∀ disorder self self',
      (display_recommendations disorder self).1.2
      = (display_recommendations disorder self').1.2.
Proof.
  do 7 (split; [vm_compute; reflexivity|]).
  split.
  - intros self. by rewrite display_recommendations_events.
  - intros disorder self self'.
    by rewrite (display_recommendations_events disorder self),
               (display_recommendations_events disorder self').
Qed.

(** C7. When the classifier's label is [1.0], [display_prediction] shows
    the name "No Disorder" in green, followed by the recommendations of
    "No Disorder", which are exactly four. *)
Theorem label_one_no_disorder :
  mapResult (LFloat (float_lit 1 0)) = ("No Disorder", "green")
  ∧ length <$> recommendations !! "No Disorder" = Some 4%nat
  ∧ ∀ self rest,
      display_prediction (Some (LFloat (float_lit 1 0) :: rest))
        (with_constants self)
      = (with_constants self,
         [st_markdown "<div class='result-text'>Prediction Result</div>" true;
          st_markdown (result_paragraph "No Disorder" "green") true;
          st_markdown "### Recommendations:" false;
          st_markdown "- Continue maintaining good sleep habits" false;
          st_markdown "- Stay physically active" false;
          st_markdown "- Monitor sleep quality regularly" false;
          st_markdown "- Practice stress management" false],
         Ok tt).
Proof.
  split; [reflexivity|]. split; [vm_compute; reflexivity|].
  intros self rest.
  unfold display_prediction, bind, getattr, lift, emit.
  rewrite with_constants_mapping. cbn [first_label].
  change (dict_get DISORDER_MAPPING_value (LFloat (float_lit 1 0))
            ("Unknown", "gray")) with ("No Disorder", "green").
  cbv beta iota. rewrite display_recommendations_events.
  reflexivity.
Qed.

(** ** The label encoder *)

Lemma float_eqb_refl (x : float) : np.float_eqb x x = true.
Proof.
  destruct x as [s|s| |s m e]; [by destruct s|by destruct s|reflexivity|].
  unfold np.float_eqb, SFeqb, SFcompare.
  destruct s; rewrite Z.compare_refl, ?Pos.compare_cont_refl, ?Pos.compare_refl;
    reflexivity.
Qed.

Section UniqueOfOne.
Context {A : Type} (leb eqb : A -> A -> bool).
Hypothesis eqb_refl : ∀ x, eqb x x = true.

Lemma unique_inverse_one (x : A) :
  np.unique_inverse leb eqb [x] = ([x], [0]).
Proof.
  unfold np.unique_inverse, np.unique. cbn. by rewrite eqb_refl.
Qed.
End UniqueOfOne.

Lemma fit_transform_refit (enc enc' : LabelEncoder.t) (y : column) :
  LabelEncoder.fit_transform enc y = LabelEncoder.fit_transform enc' y.
Proof. by destruct y. Qed.

Lemma fit_transform_one (enc : LabelEncoder.t) (y : column) :
  column_length y = 1%nat →
  (LabelEncoder.fit_transform enc y).2 = Int64Col [0].
Proof.
  destruct y as [v|v|v]; cbn [column_length]; intros Hlen;
    destruct v as [|x [|? ?]]; try discriminate Hlen;
    unfold LabelEncoder.fit_transform.
  - by rewrite (unique_inverse_one _ _ String.eqb_refl).
  - by rewrite (unique_inverse_one _ _ Z.eqb_refl).
  - by rewrite (unique_inverse_one _ _ float_eqb_refl).
Qed.

Lemma apply_fit_transform_refit (enc enc' : LabelEncoder.t) (X : DataFrame) :
  (LabelEncoderTransformer.apply_fit_transform enc X).2
  = (LabelEncoderTransformer.apply_fit_transform enc' X).2.
Proof.
  revert enc enc'. induction X as [|[name c] X IH]; intros enc enc'; [done|].
  cbn [LabelEncoderTransformer.apply_fit_transform].
  rewrite (fit_transform_refit enc enc').
  destruct (LabelEncoder.fit_transform enc' c) as [enc1 c'].
  destruct (LabelEncoderTransformer.apply_fit_transform enc1 X) as [enc2 X'].
  reflexivity.
Qed.

Lemma apply_fit_transform_one (enc : LabelEncoder.t) (X : DataFrame) :
  single_row X →
  (LabelEncoderTransformer.apply_fit_transform enc X).2 = zeros X.
Proof.
  intros Hrow. revert enc.
  induction Hrow as [|[name c] X Hc Hrow IH]; intros enc; [done|].
  cbn [LabelEncoderTransformer.apply_fit_transform].
  pose proof (fit_transform_one enc c Hc) as Hcode.
  destruct (LabelEncoder.fit_transform enc c) as [enc1 c']. cbn in Hcode.
  specialize (IH enc1).
  destruct (LabelEncoderTransformer.apply_fit_transform enc1 X) as [enc2 X'].
  cbn in IH |- *. by rewrite Hcode, IH.
Qed.

Lemma zeros_columns (X Y : DataFrame) :
  pd.columns Y = pd.columns X → zeros Y = zeros X.
Proof.
  unfold pd.columns, zeros. revert Y.
  induction X as [|[n c] X IH]; intros [|[n' c'] Y] Heq; try done.
  cbn in Heq. injection Heq as -> Heq. cbn. f_equal. by apply IH.
Qed.

Lemma transform_fitted (self : LabelEncoderTransformer.t) enc (X : DataFrame) :
  LabelEncoderTransformer.encoder self = Some enc →
  pd.rows X ≠ 0%nat →
  (LabelEncoderTransformer.transform self X).2
  = Ok (LabelEncoderTransformer.apply_fit_transform enc X).2.
Proof.
  intros Hfit Hrows. unfold LabelEncoderTransformer.transform. rewrite Hfit.
  destruct X as [|nc X]; [done|].
  destruct (Nat.eqb_spec (pd.rows (nc :: X)) 0) as [Hzero|_]; [done|].
  by destruct (LabelEncoderTransformer.apply_fit_transform enc (nc :: X)).
Qed.

Lemma transform_one_row (self : LabelEncoderTransformer.t) enc (X : DataFrame) :
  LabelEncoderTransformer.encoder self = Some enc →
  single_row X →
  (LabelEncoderTransformer.transform self X).2 = Ok (zeros X).
Proof.
  intros Hfit Hrow. destruct X as [|[name c] X].
  - unfold LabelEncoderTransformer.transform. by rewrite Hfit.
  - rewrite (transform_fitted self enc _ Hfit).
    + by rewrite apply_fit_transform_one.
    + apply Forall_cons in Hrow as [Hc _]. cbn [pd.rows snd] in *. by rewrite Hc.
Qed.

(** C2. [LabelEncoderTransformer.transform] fits its encoder anew on the
    values of the frame it is given: on a frame of one row every column is
    encoded to the single code [0] whatever value it holds, so two one-row
    frames with the same columns (one with Gender "Male", the other with
    "Female") are encoded alike; and what the encoder was fitted on before
    the call has no effect on the codes. *)
Theorem transform_single_row
    (self : LabelEncoderTransformer.t) (enc : LabelEncoder.t) (X : DataFrame)
    (Hfit : LabelEncoderTransformer.encoder self = Some enc)
    (Hrow : single_row X) :
  (LabelEncoderTransformer.transform self X).2 = Ok (zeros X)
  ∧ (∀ Y, single_row Y → pd.columns Y = pd.columns X →
       (LabelEncoderTransformer.transform self Y).2
       = (LabelEncoderTransformer.transform self X).2)
  ∧ (∀ self' enc', LabelEncoderTransformer.encoder self' = Some enc' →
       (LabelEncoderTransformer.transform self' X).2
       = (LabelEncoderTransformer.transform self X).2).
Proof.
  assert (Hzero : ∀ Y, single_row Y →
            (LabelEncoderTransformer.transform self Y).2 = Ok (zeros Y))
    by (intros Y HY; by apply (transform_one_row self enc)).
  split; [by apply Hzero|]. split.
  - intros Y HY Hcols. rewrite (Hzero Y HY), (Hzero X Hrow).
    by rewrite (zeros_columns X Y).
  - intros self' enc' Hfit'.
    by rewrite (transform_one_row self' enc' X Hfit' Hrow), (Hzero X Hrow).
Qed.

Lemma transform_single_row_witness :
  (LabelEncoderTransformer.transform
     (LabelEncoderTransformer.Build (Some LabelEncoder.new))
     [("Gender", ObjectCol ["Male"]); ("BMI Category", ObjectCol ["Obese"])]).2
  = Ok [("Gender", Int64Col [0]); ("BMI Category", Int64Col [0])]
  ∧ (LabelEncoderTransformer.transform
       (LabelEncoderTransformer.Build (Some LabelEncoder.new))
       [("Gender", ObjectCol ["Female"]); ("BMI Category", ObjectCol ["Obese"])]).2
    = (LabelEncoderTransformer.transform
         (LabelEncoderTransformer.Build (Some LabelEncoder.new))
         [("Gender", ObjectCol ["Male"]); ("BMI Category", ObjectCol ["Obese"])]).2.
Proof.
  pose proof (transform_single_row
    (LabelEncoderTransformer.Build (Some LabelEncoder.new)) LabelEncoder.new
    [("Gender", ObjectCol ["Male"]); ("BMI Category", ObjectCol ["Obese"])]
    eq_refl ltac:(repeat constructor))
    as (Hzero & Hsame & _).
  split; [exact Hzero|].
  apply Hsame; [repeat constructor|reflexivity].
Defined.

(** On more than one row the codes do tell the values apart. *)
Example transform_two_rows :
  (LabelEncoderTransformer.transform
     (LabelEncoderTransformer.Build (Some LabelEncoder.new))
     [("Gender", ObjectCol ["Male"; "Female"; "Male"])]).2
  = Ok [("Gender", Int64Col [1; 0; 1])].
Proof. reflexivity. Qed.

(** Before [fit], [transform] raises. *)
Example transform_before_fit X :
  LabelEncoderTransformer.transform (LabelEncoderTransformer.Build None) X
  = (LabelEncoderTransformer.Build None,
     Raise (Exn AttributeError
              "'LabelEncoderTransformer' object has no attribute 'encoder'")).
Proof. reflexivity. Qed.

(** ** [preprocess_input], step by step *)

Lemma preprocess_input_eq (data : DataFrame) (self : SleepDisorderApp) :
  preprocess_input data self =
  match derived_frame data with
  | Raise e => (self, (handled e).1, (handled e).2)
  | Ok data' =>
      match preprocessor self with
      | None =>
          (self,
           [st_error ("Error in preprocessing: "
                      +:+ "'SleepDisorderApp' object has no attribute '"
                      +:+ "preprocessor" +:+ "'")],
           Ok None)
      | Some p =>
          let '(p', r) := Preprocessor.transform p data' in
          match r with
          | Ok features =>
              (set_preprocessor p' self, [preprocessor_transform data'],
               Ok (Some features))
          | Raise e =>
              (set_preprocessor p' self,
               preprocessor_transform data' :: (handled e).1, (handled e).2)
          end
      end
  end.
Proof.
  unfold preprocess_input, call_preprocessor, derived_frame, try_except,
    bind, lift, getattr, emit, ret, and_then, handled.
  destruct (pd.getitem data "Sleep Duration") as [hours|e];
    [|by destruct (is_Exception e)].
  destruct (np.sqrt hours) as [root|e]; [|by destruct (is_Exception e)].
  destruct (pd.drop _ _) as [data'|e]; [|by destruct (is_Exception e)].
  destruct (preprocessor self) as [p|]; [|reflexivity].
  destruct (Preprocessor.transform p data') as [p' [features|e]]; [reflexivity|].
  by destruct (is_Exception e).
Qed.

(** ** The loaded transformer's state does not reach its output *)

Lemma encoder_transform_forget (enc : LabelEncoderTransformer.t) (X : DataFrame) :
  (LabelEncoderTransformer.transform (forget_encoder enc) X).2
  = (LabelEncoderTransformer.transform enc X).2
  ∧ forget_encoder (LabelEncoderTransformer.transform enc X).1 = forget_encoder enc.
Proof.
  destruct enc as [[e|]]; [|by split].
  unfold forget_encoder, LabelEncoderTransformer.transform.
  cbn [LabelEncoderTransformer.encoder fmap option_fmap option_map].
  destruct X as [|nc X]; [by split|].
  destruct (pd.rows (nc :: X) =? 0)%nat; [by split|].
  pose proof (apply_fit_transform_refit LabelEncoder.new e (nc :: X)) as Hrefit.
  destruct (LabelEncoderTransformer.apply_fit_transform LabelEncoder.new (nc :: X)).
  destruct (LabelEncoderTransformer.apply_fit_transform e (nc :: X)).
  cbn [fst snd] in *. by subst.
Qed.

Lemma part_transform_forget (p : Preprocessor.part) (X : DataFrame) :
  (Preprocessor.part_transform (forget_part p) X).2
  = (Preprocessor.part_transform p X).2
  ∧ forget_part (Preprocessor.part_transform p X).1 = forget_part p.
Proof.
  destruct p as [enc|f]; [|by split].
  destruct (encoder_transform_forget enc X) as [Hout Hstate].
  unfold forget_part, Preprocessor.part_transform.
  destruct (LabelEncoderTransformer.transform (forget_encoder enc) X).
  destruct (LabelEncoderTransformer.transform enc X).
  cbn [fst snd] in *. subst. by rewrite Hstate.
Qed.

Lemma forget_cons cols (p : Preprocessor.part) (self : Preprocessor.t) :
  forget ((cols, p) :: self) = (cols, forget_part p) :: forget self.
Proof. reflexivity. Qed.

Lemma preprocessor_transform_forget (self : Preprocessor.t) (X : DataFrame) :
  (Preprocessor.transform (forget self) X).2 = (Preprocessor.transform self X).2
  ∧ forget (Preprocessor.transform self X).1 = forget self.
Proof.
  induction self as [|[cols p] self [IHout IHstate]]; [by split|].
  rewrite forget_cons. cbn [Preprocessor.transform].
  destruct (pd.select X cols) as [Xc|e]; [|by split].
  destruct (part_transform_forget p Xc) as [Hout Hstate].
  destruct (Preprocessor.part_transform (forget_part p) Xc) as [q' r'].
  destruct (Preprocessor.part_transform p Xc) as [p' r].
  cbn [fst snd] in Hout, Hstate. subst r'.
  destruct r as [F|e].
  - destruct (Preprocessor.transform (forget self) X) as [s1 r1].
    destruct (Preprocessor.transform self X) as [s2 r2].
    cbn [fst snd] in *. subst r1. split; [done|].
    by rewrite !forget_cons, Hstate, IHstate.
  - cbn [fst snd]. split; [done|]. by rewrite !forget_cons, Hstate.
Qed.

Lemma preprocessor_transform_same (p q : Preprocessor.t) (X : DataFrame) :
  forget p = forget q →
  (Preprocessor.transform p X).2 = (Preprocessor.transform q X).2.
Proof.
  intros Hpq.
  rewrite <- (proj1 (preprocessor_transform_forget p X)).
  rewrite <- (proj1 (preprocessor_transform_forget q X)).
  by rewrite Hpq.
Qed.

Lemma preprocess_input_same_artifacts data (self self' : SleepDisorderApp) :
  same_artifacts self self' →
  (preprocess_input data self).1.2 = (preprocess_input data self').1.2
  ∧ (preprocess_input data self).2 = (preprocess_input data self').2.
Proof.
  unfold same_artifacts. intros Hsame. rewrite !preprocess_input_eq.
  destruct (derived_frame data) as [data'|e]; [|by split].
  destruct (preprocessor self) as [p|], (preprocessor self') as [q|];
    try discriminate Hsame; [|by split].
  injection Hsame as Hpq.
  pose proof (preprocessor_transform_same p q data' Hpq) as Hout.
  destruct (Preprocessor.transform p data') as [p' r].
  destruct (Preprocessor.transform q data') as [q' r'].
  cbn in Hout. subst r'. by destruct r.
Qed.

Lemma preprocess_input_keeps_artifacts data (self : SleepDisorderApp) :
  same_artifacts self (preprocess_input data self).1.1.
Proof.
  unfold same_artifacts. rewrite preprocess_input_eq.
  destruct (derived_frame data) as [data'|e]; [|done].
  destruct (preprocessor self) as [p|] eqn:Hp; [|by cbn; rewrite Hp].
  pose proof (proj2 (preprocessor_transform_forget p data')) as Hstate.
  destruct (Preprocessor.transform p data') as [p' r].
  cbn [fst snd] in Hstate.
  destruct r; (change (Some (forget p) = Some (forget p')); by rewrite Hstate).
Qed.

(** C8. The transform stage is deterministic: running [preprocess_input]
    twice on the same frame, the second run on the application as the first
    run left it (its label encoders refitted), gives the same feature
    vector, or the same failure, and makes the same calls. *)
Theorem preprocess_input_deterministic (data : DataFrame) (self : SleepDisorderApp) :
  let '(self1, tr1, r1) := preprocess_input data self in
  let '(self2, tr2, r2) := preprocess_input data self1 in
  r1 = r2 ∧ tr1 = tr2.
Proof.
  pose proof (preprocess_input_keeps_artifacts data self) as Hkeep.
  destruct (preprocess_input data self) as [[self1 tr1] r1] eqn:Hfirst.
  cbn in Hkeep.
  destruct (preprocess_input_same_artifacts data self self1 Hkeep) as [Htr Hr].
  rewrite Hfirst in Htr, Hr.
  destruct (preprocess_input data self1) as [[self2 tr2] r2].
  cbn in Htr, Hr. by split.
Qed.

(** Line 114 writes the new column into the caller's frame. A second run
    on that very frame replaces the column by the same values, so it derives
    the same record. *)
Lemma getitem_setitem_ne (data : DataFrame) (name other : string) (c : column) :
  String.eqb name other = false →
  pd.getitem (pd.setitem data name c) other = pd.getitem data other.
Proof.
  intros Hne. induction data as [|[n c'] data IH]; cbn [pd.setitem pd.getitem].
  - by rewrite Hne.
  - destruct (String.eqb n name) eqn:Hn; cbn [pd.getitem]; [|by rewrite IH].
    apply String.eqb_eq in Hn as ->. by rewrite Hne.
Qed.

Lemma setitem_setitem (data : DataFrame) (name : string) (c : column) :
  pd.setitem (pd.setitem data name c) name c = pd.setitem data name c.
Proof.
  induction data as [|[n c'] data IH]; cbn [pd.setitem].
  - by rewrite String.eqb_refl.
  - destruct (String.eqb n name) eqn:Hn; cbn [pd.setitem]; rewrite Hn; [done|].
    by rewrite IH.
Qed.

Lemma derived_frame_of_mutated (data : DataFrame) (hours root : column) :
  pd.getitem data "Sleep Duration" = Ok hours →
  np.sqrt hours = Ok root →
  derived_frame (pd.setitem data "Sleep Duration Sqrt" root) = derived_frame data.
Proof.
  intros Hhours Hroot. unfold derived_frame.
  rewrite getitem_setitem_ne by reflexivity.
  rewrite Hhours. cbn [and_then]. rewrite Hroot. cbn [and_then].
  by rewrite setitem_setitem.
Qed.

(** ** The input form *)

Lemma get_user_input_eq (s : Session) (self : SleepDisorderApp) occupations bmi_categories :
  OCCUPATIONS self = Some occupations →
  BMI_CATEGORIES self = Some bmi_categories →
  get_user_input s self
  = (self, form_widgets occupations bmi_categories,
     Ok (clicked s "Predict Sleep Disorder",
         session_submission s occupations bmi_categories)).
Proof. intros Ho Hb. unfold_form. rewrite Ho, Hb. reflexivity. Qed.

Lemma get_user_input_inv (s : Session) (self self' : SleepDisorderApp) tr submit d :
  get_user_input s self = (self', tr, Ok (submit, d)) →
  ∃ occupations bmi_categories,
    OCCUPATIONS self = Some occupations
    ∧ BMI_CATEGORIES self = Some bmi_categories
    ∧ self' = self
    ∧ tr = form_widgets occupations bmi_categories
    ∧ submit = clicked s "Predict Sleep Disorder"
    ∧ d = session_submission s occupations bmi_categories.
Proof.
  destruct (OCCUPATIONS self) as [occupations|] eqn:Ho;
    [|unfold_form; rewrite Ho; discriminate].
  destruct (BMI_CATEGORIES self) as [bmi_categories|] eqn:Hb;
    [|unfold_form; rewrite Ho, Hb; discriminate].
  rewrite (get_user_input_eq s self _ _ Ho Hb). intros [= <- <- <- <-].
  by exists occupations, bmi_categories.
Qed.

Lemma get_user_input_calls (s : Session) (self : SleepDisorderApp) :
  predict_calls (get_user_input s self).1.2 = []
  ∧ transform_calls (get_user_input s self).1.2 = [].
Proof.
  unfold_form.
  destruct (OCCUPATIONS self); [|by split].
  destruct (BMI_CATEGORIES self); by split.
Qed.

(** ** What reaches the loaded transformer *)

Lemma drop_no_column (data X : DataFrame) (name : string) :
  pd.drop data name = Ok X → pd.has_column X name = false.
Proof.
  unfold pd.drop. destruct (pd.has_column data name); [|discriminate].
  intros [= <-]. unfold pd.has_column, pd.columns. clear.
  induction data as [|[n c] data IH]; [reflexivity|].
  cbn [List.filter fst]. destruct (String.eqb n name) eqn:Hn; cbn.
  - exact IH.
  - rewrite String.eqb_sym, Hn. exact IH.
Qed.

Lemma derived_frame_no_hours (data X : DataFrame) :
  derived_frame data = Ok X → pd.has_column X "Sleep Duration" = false.
Proof.
  unfold derived_frame, and_then.
  destruct (pd.getitem data "Sleep Duration"); [|discriminate].
  destruct (np.sqrt _); [|discriminate].
  apply drop_no_column.
Qed.

Lemma derived_frame_submission gender age hours occupation quality activity
    stress bmi systolic diastolic heart_rate steps :
  derived_frame (pd_DataFrame
    (submission gender age hours occupation quality activity stress bmi
       systolic diastolic heart_rate steps))
  = Ok (submission_sqrt gender age hours occupation quality activity stress bmi
          systolic diastolic heart_rate steps).
Proof. reflexivity. Qed.

Lemma preprocess_input_transform_calls (data : DataFrame) (self : SleepDisorderApp) :
  transform_calls (preprocess_input data self).1.2
  = match derived_frame data, preprocessor self with
    | Ok X, Some _ => [X]
    | _, _ => []
    end.
Proof.
  rewrite preprocess_input_eq.
  destruct (derived_frame data) as [X|e]; [|by unfold handled; destruct (is_Exception e)].
  destruct (preprocessor self) as [p|]; [|reflexivity].
  destruct (Preprocessor.transform p X) as [p' [features|e]]; [reflexivity|].
  by unfold handled; destruct (is_Exception e).
Qed.

(** C3. For every submission of the form, [preprocess_input] hands the
    loaded transformer, in its one call, the record with the eleven fields
    other than the hours, unchanged and in their order, followed by
    "Sleep Duration Sqrt" holding the square root of the hours; that record
    has twelve columns and none named "Sleep Duration". Whatever frame
    [preprocess_input] is given, a frame it passes to the transformer has
    no column "Sleep Duration". *)
Theorem preprocess_input_replaces_hours
    (s : Session) (self0 self0' self : SleepDisorderApp) (p : Preprocessor.t)
    tr0 submit input_data
    (Hform : get_user_input s self0 = (self0', tr0, Ok (submit, input_data)))
    (Hloaded : preprocessor self = Some p) :
  (∃ gender age hours occupation quality activity stress bmi
     systolic diastolic heart_rate steps,
     input_data = submission gender age hours occupation quality activity
                    stress bmi systolic diastolic heart_rate steps
     ∧ transform_calls (preprocess_input (pd_DataFrame input_data) self).1.2
       = [submission_sqrt gender age hours occupation quality activity
            stress bmi systolic diastolic heart_rate steps]
     ∧ pd.getitem
         (submission_sqrt gender age hours occupation quality activity
            stress bmi systolic diastolic heart_rate steps)
         "Sleep Duration Sqrt"
       = and_then (pd.getitem (pd_DataFrame input_data) "Sleep Duration") np.sqrt)
  ∧ (∀ X, X ∈ transform_calls (preprocess_input (pd_DataFrame input_data) self).1.2 →
       pd.has_column X "Sleep Duration" = false ∧ length X = 12%nat)
  ∧ (∀ data self' X, X ∈ transform_calls (preprocess_input data self').1.2 →
       derived_frame data = Ok X ∧ pd.has_column X "Sleep Duration" = false).
Proof.
  apply get_user_input_inv in Hform
    as (occupations & bmi_categories & _ & _ & _ & _ & _ & ->).
  split; [|split].
  - unfold session_submission. do 12 eexists.
    split; [reflexivity|]. split; [|reflexivity].
    by rewrite preprocess_input_transform_calls, derived_frame_submission, Hloaded.
  - intros X. unfold session_submission.
    rewrite preprocess_input_transform_calls, derived_frame_submission, Hloaded.
    intros ->%list_elem_of_singleton. by split.
  - intros data self' X. rewrite preprocess_input_transform_calls.
    destruct (derived_frame data) as [X'|e] eqn:Hd; [|by intros ?%elem_of_nil].
    destruct (preprocessor self'); [|by intros ?%elem_of_nil].
    intros ->%list_elem_of_singleton. split; [done|].
    by apply (derived_frame_no_hours data).
Qed.

Lemma preprocess_input_replaces_hours_witness :
  ∃ gender age hours occupation quality activity stress bmi
    systolic diastolic heart_rate steps,
    session_submission untouched OCCUPATIONS_value BMI_CATEGORIES_value
    = submission gender age hours occupation quality activity
        stress bmi systolic diastolic heart_rate steps
    ∧ transform_calls
        (preprocess_input
           (pd_DataFrame
              (session_submission untouched OCCUPATIONS_value BMI_CATEGORIES_value))
           (example_app example_preprocessor)).1.2
      = [submission_sqrt gender age hours occupation quality activity
           stress bmi systolic diastolic heart_rate steps]
    ∧ pd.getitem
        (submission_sqrt gender age hours occupation quality activity
           stress bmi systolic diastolic heart_rate steps)
        "Sleep Duration Sqrt"
      = and_then
          (pd.getitem
             (pd_DataFrame
                (session_submission untouched OCCUPATIONS_value BMI_CATEGORIES_value))
             "Sleep Duration")
          np.sqrt.
Proof.
  apply (proj1 (preprocess_input_replaces_hours untouched
                  (with_constants new_app) (with_constants new_app)
                  (example_app example_preprocessor) example_preprocessor
                  (form_widgets OCCUPATIONS_value BMI_CATEGORIES_value)
                  true
                  (session_submission untouched OCCUPATIONS_value BMI_CATEGORIES_value)
                  eq_refl eq_refl)).
Defined.

(** ** The square-root step *)

(** C9. The square root that line 114 of [preprocess_input] takes, as the
    loaded transformer receives it under "Sleep Duration Sqrt": for a
    record whose hours are [0.0] it is [0.0], and the step raises nothing
    (the transformer is called); for [9.0] it is [3.0]; for [7.5] it is a
    float within [1e-4] of [2.7386]. This holds whatever the other eleven
    fields are, and these are the values of [np.sqrt] on the one-row
    columns. *)
Theorem sqrt_point_values
    (self : SleepDisorderApp) (p : Preprocessor.t)
    gender age occupation quality activity stress bmi
    systolic diastolic heart_rate steps
    (Hloaded : preprocessor self = Some p) :
  (∃ X,
     transform_calls
       (preprocess_input
          (pd_DataFrame
             (submission gender age (float_lit 0 0) occupation quality activity
                stress bmi systolic diastolic heart_rate steps))
          self).1.2 = [X]
     ∧ pd.getitem X "Sleep Duration Sqrt" = Ok (Float64Col [float_lit 0 0]))
  ∧ (∃ X,
       transform_calls
         (preprocess_input
            (pd_DataFrame
               (submission gender age (float_lit 9 0) occupation quality activity
                  stress bmi systolic diastolic heart_rate steps))
            self).1.2 = [X]
       ∧ pd.getitem X "Sleep Duration Sqrt" = Ok (Float64Col [float_lit 3 0]))
  ∧ (∃ X root q,
       transform_calls
         (preprocess_input
            (pd_DataFrame
               (submission gender age (float_lit 15 (-1)) occupation quality
                  activity stress bmi systolic diastolic heart_rate steps))
            self).1.2 = [X]
       ∧ pd.getitem X "Sleep Duration Sqrt" = Ok (Float64Col [root])
       ∧ float_to_Q root = Some q
       ∧ (Qabs (q - (27386 # 10000)) <= 1 # 10000)%Q)
  ∧ np.sqrt (Float64Col [float_lit 0 0]) = Ok (Float64Col [float_lit 0 0])
  ∧ np.sqrt (Float64Col [float_lit 9 0]) = Ok (Float64Col [float_lit 3 0])
  ∧ ∃ root q,
      np.sqrt (Float64Col [float_lit 15 (-1)]) = Ok (Float64Col [root])
      ∧ float_to_Q root = Some q
      ∧ (Qabs (q - (27386 # 10000)) <= 1 # 10000)%Q.
Proof.
  split; [|split; [|split]].
  - eexists. rewrite preprocess_input_transform_calls, derived_frame_submission,
      Hloaded. split; [reflexivity|]. vm_compute. reflexivity.
  - eexists. rewrite preprocess_input_transform_calls, derived_frame_submission,
      Hloaded. split; [reflexivity|]. vm_compute. reflexivity.
  - eexists _, _, _.
    rewrite preprocess_input_transform_calls, derived_frame_submission, Hloaded.
    split; [reflexivity|]. split; [vm_compute; reflexivity|].
    split; [reflexivity|]. apply Qle_bool_iff. vm_compute. reflexivity.
  - split; [vm_compute; reflexivity|]. split; [vm_compute; reflexivity|].
    eexists _, _. split; [vm_compute; reflexivity|].
    split; [reflexivity|].
    apply Qle_bool_iff. vm_compute. reflexivity.
Qed.

Lemma sqrt_point_values_witness :
  ∃ X,
    transform_calls
      (preprocess_input
         (pd_DataFrame
            (submission "Female" 45 (float_lit 9 0) "Nurse" 4 60 8 "Obese"
               135 85 72 4000))
         (example_app example_preprocessor)).1.2 = [X]
    ∧ pd.getitem X "Sleep Duration Sqrt" = Ok (Float64Col [float_lit 3 0]).
Proof.
  apply (proj1 (proj2 (sqrt_point_values (example_app example_preprocessor)
                         example_preprocessor "Female" 45 "Nurse" 4 60 8 "Obese"
                         135 85 72 4000 eq_refl))).
Defined.

(** ** The calls made on the classifier *)

Lemma predict_calls_app (tr tr' : list event) :
  predict_calls (tr ++ tr') = predict_calls tr ++ predict_calls tr'.
Proof. apply omap_app. Qed.

Lemma display_prediction_calls prediction (self : SleepDisorderApp) :
  predict_calls (display_prediction prediction self).1.2 = [].
Proof.
  destruct prediction as [prediction|]; [|reflexivity].
  unfold display_prediction, bind, getattr, lift, emit.
  destruct (DISORDER_MAPPING self) as [mapping|]; [|reflexivity].
  destruct prediction as [|l rest]; [reflexivity|]. cbn [first_label].
  destruct (dict_get mapping l ("Unknown", "gray")) as [disorder color].
  destruct (display_recommendations_state disorder self) as (tr & Htr & Hp & _).
  cbv beta iota. rewrite Htr. cbn. exact Hp.
Qed.

Lemma predict_and_display_calls (features : Features) (self : SleepDisorderApp) :
  predict_calls (predict_and_display features self).1.2
  = match model self with Some _ => [features] | None => [] end.
Proof.
  unfold predict_and_display, try_except, call_model.
  unfold bind at 1 2 3, getattr, emit at 1, lift.
  destruct (model self) as [m|]; [|reflexivity].
  destruct (predict m features) as [prediction|e];
    [|by destruct (is_Exception e)].
  pose proof (display_prediction_calls prediction self) as Hshow.
  unfold predict_calls in *.
  destruct (display_prediction prediction self) as [[self2 tr2] [[]|e]];
    cbn [fst snd] in Hshow; cbn.
  - by rewrite Hshow.
  - destruct (is_Exception e); cbn; rewrite ?omap_app, Hshow; done.
Qed.

Lemma preprocess_input_predict_calls (data : DataFrame) (self : SleepDisorderApp) :
  predict_calls (preprocess_input data self).1.2 = [].
Proof.
  rewrite preprocess_input_eq.
  destruct (derived_frame data) as [X|e]; [|by unfold handled; destruct (is_Exception e)].
  destruct (preprocessor self) as [p|]; [|reflexivity].
  destruct (Preprocessor.transform p X) as [p' [features|e]]; [reflexivity|].
  by unfold handled; destruct (is_Exception e).
Qed.

Lemma run_predict_calls (s : Session) (self : SleepDisorderApp) :
  predict_calls (run s self).1.2
  = match get_user_input s self with
    | (self0, _, Ok (true, input_data)) =>
        match preprocess_input (pd_DataFrame input_data) self0 with
        | (self1, _, Ok (Some features)) =>
            match model self1 with Some _ => [features] | None => [] end
        | _ => []
        end
    | _ => []
    end.
Proof.
  pose proof (get_user_input_calls s self) as [Hform _].
  unfold run.
  unfold bind at 1 2, emit at 1.
  destruct (get_user_input s self) as [[self0 tr0] [[submit input_data]|e]];
    cbn [fst snd] in Hform; [|exact Hform].
  destruct submit; [|by cbn; rewrite app_nil_r].
  unfold bind at 1 2, emit at 1.
  pose proof (preprocess_input_predict_calls (pd_DataFrame input_data) self0) as Hpre.
  destruct (preprocess_input (pd_DataFrame input_data) self0)
    as [[self1 tr1] [[features|]|e]]; cbn [fst snd] in Hpre.
  - pose proof (predict_and_display_calls features self1) as Hcall.
    change (try_except _ _ _ self1) with (predict_and_display features self1).
    destruct (predict_and_display features self1) as [[self2 tr2] r].
    cbn [fst snd] in Hcall. unfold predict_calls in *. cbn.
    by rewrite !omap_app, Hform; cbn; rewrite omap_app, Hpre, Hcall.
  - unfold predict_calls in *. cbn.
    by rewrite !omap_app, Hform; cbn; rewrite ?omap_app, Hpre.
  - unfold predict_calls in *. cbn.
    by rewrite ?omap_app, Hform; cbn; rewrite ?omap_app, Hpre.
Qed.

(** C4. [run] stops at the first failure: when [preprocess_input] gives no
    feature vector for the submission, the classifier's [predict] is not
    called; and when [predict] is called, once, it is on the feature vector
    that [preprocess_input] returned for the submitted form. *)
Theorem run_short_circuit (s : Session) (self : SleepDisorderApp) :
  (∀ self0 tr0 submit input_data,
     get_user_input s self = (self0, tr0, Ok (submit, input_data)) →
     (∀ features,
        (preprocess_input (pd_DataFrame input_data) self0).2 ≠ Ok (Some features)) →
     predict_calls (run s self).1.2 = [])
  ∧ (∀ features, features ∈ predict_calls (run s self).1.2 →
       ∃ self0 tr0 input_data,
         get_user_input s self = (self0, tr0, Ok (true, input_data))
         ∧ (preprocess_input (pd_DataFrame input_data) self0).2 = Ok (Some features)
         ∧ predict_calls (run s self).1.2 = [features]).
Proof.
  rewrite run_predict_calls. split.
  - intros self0 tr0 submit input_data -> Hfail.
    destruct submit; [|reflexivity].
    destruct (preprocess_input (pd_DataFrame input_data) self0)
      as [[self1 tr1] [[features|]|e]]; try reflexivity.
    by destruct (Hfail features).
  - intros features.
    destruct (get_user_input s self) as [[self0 tr0] [[[] input_data]|e]];
      try (by intros ?%elem_of_nil).
    destruct (preprocess_input (pd_DataFrame input_data) self0)
      as [[self1 tr1] [[features'|]|e]] eqn:Hpre; try (by intros ?%elem_of_nil).
    destruct (model self1); [|by intros ?%elem_of_nil].
    intros ->%list_elem_of_singleton.
    exists self0, tr0, input_data. by rewrite Hpre.
Qed.

Lemma run_short_circuit_witness :
  predict_calls (run untouched (example_app stale_preprocessor)).1.2 = [].
Proof.
  apply (proj1 (run_short_circuit untouched (example_app stale_preprocessor))
           (example_app stale_preprocessor)
           (form_widgets OCCUPATIONS_value BMI_CATEGORIES_value)
           true
           (session_submission untouched OCCUPATIONS_value BMI_CATEGORIES_value)).
  - reflexivity.
  - intros features. vm_compute. discriminate.
Defined.

Example run_reaches_predict :
  predict_calls (run untouched (example_app example_preprocessor)).1.2
  = [[[float_lit 0 0]; [float_lit 0 0]; [float_lit 0 0];
      [float_lit 30 0]; [float_lit 7 0]; [float_lit 30 0]; [float_lit 5 0];
      [float_lit 120 0]; [float_lit 80 0]; [float_lit 70 0]; [float_lit 10000 0];
      [SFsqrt prec emax (float_lit 15 (-1))]]].
Proof. vm_compute. reflexivity. Qed.

(** ** Loading the artifacts *)

Lemma load_models_eq (env : Env) (self : SleepDisorderApp) :
  load_models env self =
  match joblib_load "sleep_disorder_random_forest_model.pkl"
          (sleep_disorder_random_forest_model_pkl env) with
  | Raise e => (self, (load_failure e).1, (load_failure e).2)
  | Ok m =>
      match joblib_load "preprocessor.pkl" (preprocessor_pkl env) with
      | Raise e => (set_model m self, (load_failure e).1, (load_failure e).2)
      | Ok p => (set_preprocessor p (set_model m self), [], Ok tt)
      end
  end.
Proof.
  unfold load_models, try_except, bind, lift, setattr, emit, st_stop, raise,
    load_failure.
  destruct (joblib_load _ (sleep_disorder_random_forest_model_pkl env)) as [m|e];
    [|by destruct (is_FileNotFoundError e)].
  destruct (joblib_load _ (preprocessor_pkl env)) as [p|e]; [reflexivity|].
  by destruct (is_FileNotFoundError e).
Qed.

Lemma load_failure_raises (e : exn) : ∃ e', (load_failure e).2 = Raise e'.
Proof. unfold load_failure. destruct (is_FileNotFoundError e); by eexists. Qed.

Lemma setup_style_state (env : Env) (self : SleepDisorderApp) :
  (setup_style env self).1.1 = self.
Proof.
  unfold setup_style, try_except, set_background_style, set_default_style,
    raise, bind, emit.
  destruct (Background_jpg env) as [|e|encoded_string]; try reflexivity.
  by destruct (is_Exception e).
Qed.

Lemma init_eq (env : Env) (self : SleepDisorderApp) :
  init env self =
  match load_models env self with
  | (self1, tr1, Ok _) =>
      let '(self2, tr2, r) := setup_style env (with_constants self1) in
      (self2, tr1 ++ tr2, r)
  | (self1, tr1, Raise e) => (self1, tr1, Raise e)
  end.
Proof.
  unfold init, bind. destruct (load_models env self) as [[self1 tr1] [[]|e]];
    [|reflexivity].
  unfold setup_constants, setattr, with_constants. cbn [fst snd].
  by destruct (setup_style env _) as [[self2 tr2] r].
Qed.




(** With both artifacts in place the script runs through. *)
Example main_runs :
  (main (example_env (Stored example_model) (Stored example_preprocessor))).2 = Ok tt
  ∧ predict_calls
      (main (example_env (Stored example_model) (Stored example_preprocessor))).1.2
    ≠ [].
Proof. split; [vm_compute; reflexivity|vm_compute; discriminate]. Qed.

(** * Further properties *)

(** ** The codes of [LabelEncoderTransformer.transform] *)

Section UniqueCodes.
Context {A : Type} (leb eqb : A -> A -> bool).
Hypothesis eqb_refl : ∀ x, eqb x x = true.
Hypothesis eqb_join :
  ∀ x y z, eqb x y = true → eqb z y = true → eqb z x = true.

Lemma insert_class_length (x : A) (classes : list A) :
  (length (np.insert_class leb eqb x classes) <= S (length classes))%nat.
Proof.
  induction classes as [|y classes IH]; cbn; [lia|].
  destruct (eqb x y); cbn; [lia|]. destruct (leb x y); cbn; lia.
Qed.

Lemma unique_length (values : list A) :
  (length (np.unique leb eqb values) <= length values)%nat.
Proof.
  induction values as [|x values IH]; cbn; [lia|].
  pose proof (insert_class_length x (np.unique leb eqb values)).
  unfold np.unique in *. lia.
Qed.

Lemma insert_class_keeps (x z : A) (classes : list A) :
  Exists (λ y, eqb z y = true) classes →
  Exists (λ y, eqb z y = true) (np.insert_class leb eqb x classes).
Proof.
  induction classes as [|y classes IH]; intros Hz; [by inversion Hz|].
  cbn. destruct (eqb x y) eqn:Hxy.
  - inversion Hz; subst; [left; by apply (eqb_join x y z)|by right].
  - destruct (leb x y); [by right|].
    inversion Hz; subst; [by left|right; by apply IH].
Qed.

Lemma insert_class_has (x : A) (classes : list A) :
  Exists (λ y, eqb x y = true) (np.insert_class leb eqb x classes).
Proof.
  induction classes as [|y classes IH]; cbn; [by left|].
  destruct (eqb x y) eqn:Hxy; [by left|].
  destruct (leb x y); [by left|by right].
Qed.

Lemma unique_has (x : A) (values : list A) :
  x ∈ values → Exists (λ y, eqb x y = true) (np.unique leb eqb values).
Proof.
  induction values as [|z values IH]; intros Hx; [by apply elem_of_nil in Hx|].
  apply elem_of_cons in Hx as [->|Hx]; cbn.
  - apply insert_class_has.
  - apply insert_class_keeps. by apply IH.
Qed.

Lemma position_bounds (x : A) (classes : list A) :
  Exists (λ y, eqb x y = true) classes →
  0 <= np.position eqb x classes < Z.of_nat (length classes).
Proof.
  induction 1 as [y classes Hy|y classes _ IH]; cbn [np.position length].
  - rewrite Hy. lia.
  - destruct (eqb x y); lia.
Qed.

Lemma unique_inverse_codes (values : list A) :
  length (np.unique_inverse leb eqb values).2 = length values
  ∧ Forall (λ code, 0 <= code < Z.of_nat (length values))
      (np.unique_inverse leb eqb values).2.
Proof.
  unfold np.unique_inverse. cbn [snd]. split; [by rewrite length_fmap|].
  apply Forall_fmap, Forall_forall. intros x Hx. cbn.
  pose proof (position_bounds x _ (unique_has x values Hx)).
  pose proof (unique_length values). lia.
Qed.

Hypothesis eqb_eq : ∀ x y, eqb x y = true → x = y.

Lemma position_decodes (x : A) (classes : list A) :
  Exists (λ y, eqb x y = true) classes →
  classes !! Z.to_nat (np.position eqb x classes) = Some x.
Proof.
  induction 1 as [y classes Hy|y classes Hrest IH]; cbn [np.position].
  - rewrite Hy. by rewrite (eqb_eq x y Hy).
  - destruct (eqb x y) eqn:Hxy; [by rewrite (eqb_eq x y Hxy)|].
    pose proof (position_bounds x classes Hrest) as Hpos.
    replace (Z.to_nat (1 + np.position eqb x classes))
      with (S (Z.to_nat (np.position eqb x classes))) by lia.
    exact IH.
Qed.

Lemma unique_inverse_same_code (values : list A) (i j : nat) vi vj ci cj :
  values !! i = Some vi → values !! j = Some vj →
  (np.unique_inverse leb eqb values).2 !! i = Some ci →
  (np.unique_inverse leb eqb values).2 !! j = Some cj →
  (ci = cj ↔ vi = vj).
Proof.
  unfold np.unique_inverse. cbn [snd]. rewrite !list_lookup_fmap.
  intros Hvi Hvj. rewrite Hvi, Hvj. cbn. intros [= <-] [= <-].
  split; [|by intros ->].
  intros Hcode.
  pose proof (position_decodes vi _
    (unique_has vi values (list_elem_of_lookup_2 _ _ _ Hvi))) as Hi.
  pose proof (position_decodes vj _
    (unique_has vj values (list_elem_of_lookup_2 _ _ _ Hvj))) as Hj.
  rewrite Hcode in Hi. congruence.
Qed.

End UniqueCodes.

Lemma string_eqb_join (x y z : string) :
  String.eqb x y = true → String.eqb z y = true → String.eqb z x = true.
Proof. by intros ->%String.eqb_eq ->%String.eqb_eq; apply String.eqb_refl. Qed.

Lemma Z_eqb_join (x y z : Z) :
  Z.eqb x y = true → Z.eqb z y = true → Z.eqb z x = true.
Proof. by intros ->%Z.eqb_eq ->%Z.eqb_eq; apply Z.eqb_refl. Qed.

Lemma fit_transform_encoded (enc : LabelEncoder.t) (c : column) :
  encoded_like c (LabelEncoder.fit_transform enc c).2.
Proof.
  unfold encoded_like.
  destruct c as [v|v|v]; cbn [LabelEncoder.fit_transform column_length].
  - destruct (unique_inverse_codes String.leb String.eqb String.eqb_refl
                string_eqb_join v) as [Hlen Hcodes].
    destruct (np.unique_inverse String.leb String.eqb v) as [classes codes].
    by exists codes.
  - destruct (unique_inverse_codes Z.leb Z.eqb Z.eqb_refl Z_eqb_join v)
      as [Hlen Hcodes].
    destruct (np.unique_inverse Z.leb Z.eqb v) as [classes codes].
    by exists codes.
  - destruct (unique_inverse_codes np.float_leb np.float_eqb float_eqb_refl
                float_eqb_join v) as [Hlen Hcodes].
    destruct (np.unique_inverse np.float_leb np.float_eqb v) as [classes codes].
    by exists codes.
Qed.

Lemma apply_fit_transform_shape (enc : LabelEncoder.t) (X : DataFrame) :
  pd.columns (LabelEncoderTransformer.apply_fit_transform enc X).2 = pd.columns X
  ∧ Forall2 (λ nc nc', encoded_like nc.2 nc'.2)
      X (LabelEncoderTransformer.apply_fit_transform enc X).2.
Proof.
  revert enc. induction X as [|[name c] X IH]; intros enc; [by split|].
  cbn [LabelEncoderTransformer.apply_fit_transform].
  pose proof (fit_transform_encoded enc c) as Hc.
  destruct (LabelEncoder.fit_transform enc c) as [enc1 c'].
  destruct (IH enc1) as [Hcols Hrest].
  destruct (LabelEncoderTransformer.apply_fit_transform enc1 X) as [enc2 X'].
  cbn [fst snd] in *. split.
  - unfold pd.columns in *. cbn. by rewrite Hcols.
  - by constructor.
Qed.

Lemma apply_fit_transform_getitem (enc : LabelEncoder.t) (X : DataFrame) name :
  pd.getitem (LabelEncoderTransformer.apply_fit_transform enc X).2 name
  = and_then (pd.getitem X name)
      (λ c, Ok (LabelEncoder.fit_transform LabelEncoder.new c).2).
Proof.
  revert enc. induction X as [|[n c] X IH]; intros enc; [reflexivity|].
  cbn [LabelEncoderTransformer.apply_fit_transform].
  rewrite (fit_transform_refit enc LabelEncoder.new).
  destruct (LabelEncoder.fit_transform LabelEncoder.new c) as [enc1 c'] eqn:Hc.
  specialize (IH enc1).
  destruct (LabelEncoderTransformer.apply_fit_transform enc1 X) as [enc2 X'].
  cbn [fst snd pd.getitem] in *.
  destruct (String.eqb n name); [|exact IH].
  cbn [and_then]. by rewrite Hc.
Qed.

(** X1. Once [fit] has run, [transform] succeeds on every frame that has
    at least one row: it returns a frame with the same column names in the
    same order, each column replaced by integer codes, one per row, every
    code at least 0 and below the number of rows. On a frame that has
    columns and no row it raises a [ValueError]. *)
Theorem transform_after_fit (self : LabelEncoderTransformer.t) (X0 X : DataFrame) :
  (pd.rows X ≠ 0%nat →
   ∃ X', (LabelEncoderTransformer.transform
            (LabelEncoderTransformer.fit self X0) X).2 = Ok X'
         ∧ pd.columns X' = pd.columns X
         ∧ Forall2 (λ nc nc', encoded_like nc.2 nc'.2) X X')
  ∧ (X ≠ [] → pd.rows X = 0%nat →
     (LabelEncoderTransformer.transform
        (LabelEncoderTransformer.fit self X0) X).2
     = Raise (Exn ValueError
                ("Length of values (0) does not match length of index ("
                 +:+ pretty (length X) +:+ ")"))).
Proof.
  split.
  - intros Hrows.
    rewrite (transform_fitted (LabelEncoderTransformer.fit self X0)
               LabelEncoder.new X eq_refl Hrows).
    destruct (apply_fit_transform_shape LabelEncoder.new X) as [Hcols Hcodes].
    by eexists.
  - intros Hcols Hrows.
    unfold LabelEncoderTransformer.fit, LabelEncoderTransformer.transform.
    cbn [LabelEncoderTransformer.encoder].
    destruct X as [|nc X]; [done|]. by rewrite Hrows.
Qed.

Lemma transform_after_fit_witness :
  (∃ X', (LabelEncoderTransformer.transform
            (LabelEncoderTransformer.fit (LabelEncoderTransformer.Build None) [])
            [("Gender", ObjectCol ["Male"; "Female"]);
             ("Age", Int64Col [30; 30])]).2 = Ok X'
         ∧ pd.columns X' = ["Gender"; "Age"]
         ∧ Forall2 (λ nc nc', encoded_like nc.2 nc'.2)
             [("Gender", ObjectCol ["Male"; "Female"]);
              ("Age", Int64Col [30; 30])] X')
  ∧ (LabelEncoderTransformer.transform
       (LabelEncoderTransformer.fit (LabelEncoderTransformer.Build None) [])
       [("Gender", ObjectCol []); ("Age", Int64Col [])]).2
    = Raise (Exn ValueError "Length of values (0) does not match length of index (2)").
Proof.
  split.
  - apply (proj1 (transform_after_fit (LabelEncoderTransformer.Build None) []
                    [("Gender", ObjectCol ["Male"; "Female"]);
                     ("Age", Int64Col [30; 30])])).
    discriminate.
  - apply (proj2 (transform_after_fit (LabelEncoderTransformer.Build None) []
                    [("Gender", ObjectCol []); ("Age", Int64Col [])]));
      [discriminate|reflexivity].
Defined.

(** X2. Within one call of [transform] on a frame that has at least one
    row and distinct column names, the codes of a column of strings tell its
    values apart exactly: two rows get the same code if and only if they
    hold the same value. *)
Theorem transform_same_code_same_value
    (self : LabelEncoderTransformer.t) (enc : LabelEncoder.t)
    (X : DataFrame) (name : string) (values : list string)
    (Hfit : LabelEncoderTransformer.encoder self = Some enc)
    (Hrows : pd.rows X ≠ 0%nat)
    (Hnames : NoDup (pd.columns X))
    (Hcol : pd.getitem X name = Ok (ObjectCol values)) :
  ∃ X' codes,
    (LabelEncoderTransformer.transform self X).2 = Ok X'
    ∧ pd.getitem X' name = Ok (Int64Col codes)
    ∧ length codes = length values
    ∧ ∀ i j vi vj ci cj,
        values !! i = Some vi → values !! j = Some vj →
        codes !! i = Some ci → codes !! j = Some cj →
        (ci = cj ↔ vi = vj).
Proof.
  rewrite (transform_fitted self enc X Hfit Hrows).
  pose proof (apply_fit_transform_getitem enc X name) as Hget.
  rewrite Hcol in Hget. cbn [and_then LabelEncoder.fit_transform] in Hget.
  pose proof (unique_inverse_codes String.leb String.eqb String.eqb_refl
                string_eqb_join values) as [Hlen _].
  pose proof (unique_inverse_same_code String.leb String.eqb String.eqb_refl
                string_eqb_join (λ x y, proj1 (String.eqb_eq x y)) values)
    as Hsame.
  destruct (np.unique_inverse String.leb String.eqb values) as [classes codes].
  cbn [snd] in *.
  exists (LabelEncoderTransformer.apply_fit_transform enc X).2, codes.
  split; [done|]. split; [done|]. split; [done|exact Hsame].
Qed.

Lemma transform_same_code_same_value_witness :
  ∃ X' codes,
    (LabelEncoderTransformer.transform
       (LabelEncoderTransformer.Build (Some LabelEncoder.new))
       [("Gender", ObjectCol ["Male"; "Female"; "Male"])]).2 = Ok X'
    ∧ pd.getitem X' "Gender" = Ok (Int64Col codes)
    ∧ length codes = length ["Male"; "Female"; "Male"]
    ∧ ∀ i j vi vj ci cj,
        ["Male"; "Female"; "Male"] !! i = Some vi →
        ["Male"; "Female"; "Male"] !! j = Some vj →
        codes !! i = Some ci → codes !! j = Some cj →
        (ci = cj ↔ vi = vj).
Proof.
  apply (transform_same_code_same_value
           (LabelEncoderTransformer.Build (Some LabelEncoder.new))
           LabelEncoder.new
           [("Gender", ObjectCol ["Male"; "Female"; "Male"])] "Gender"
           ["Male"; "Female"; "Male"] eq_refl ltac:(discriminate)
           (NoDup_singleton "Gender") eq_refl).
Defined.

(** X3. The code of a value is not fixed from one call to the next: a
    value encoded alone gets 0, and the same value gets 1 when the frame
    also holds a value that sorts before it. *)
Theorem code_depends_on_other_rows
    (self : LabelEncoderTransformer.t) (enc : LabelEncoder.t)
    (name x y : string)
    (Hfit : LabelEncoderTransformer.encoder self = Some enc)
    (Hless : String.ltb y x = true) :
  (LabelEncoderTransformer.transform self [(name, ObjectCol [x])]).2
  = Ok [(name, Int64Col [0])]
  ∧ (LabelEncoderTransformer.transform self [(name, ObjectCol [x; y])]).2
    = Ok [(name, Int64Col [1; 0])].
Proof.
  rewrite !(transform_fitted self enc _ Hfit) by discriminate.
  unfold String.ltb in Hless.
  destruct (String.compare y x) eqn:Hyx; try discriminate Hless.
  assert (Hxy : String.compare x y = Gt)
    by (by rewrite String.compare_antisym, Hyx).
  assert (Hne : String.eqb x y = false).
  { apply String.eqb_neq. intros ->. congruence. }
  assert (Hleb : String.leb x y = false) by (unfold String.leb; by rewrite Hxy).
  cbn. unfold np.unique_inverse, np.unique. cbn.
  rewrite !String.eqb_refl. cbn. rewrite Hne, Hleb. cbn.
  by rewrite Hne, !String.eqb_refl.
Qed.

Lemma code_depends_on_other_rows_witness :
  (LabelEncoderTransformer.transform
     (LabelEncoderTransformer.Build (Some LabelEncoder.new))
     [("Gender", ObjectCol ["Male"])]).2
  = Ok [("Gender", Int64Col [0])]
  ∧ (LabelEncoderTransformer.transform
       (LabelEncoderTransformer.Build (Some LabelEncoder.new))
       [("Gender", ObjectCol ["Male"; "Female"])]).2
    = Ok [("Gender", Int64Col [1; 0])].
Proof.
  apply (code_depends_on_other_rows
           (LabelEncoderTransformer.Build (Some LabelEncoder.new))
           LabelEncoder.new "Gender" "Male" "Female" eq_refl eq_refl).
Defined.

(** ** Failures of [preprocess_input] *)

(** X4. [preprocess_input] lets no [Exception] escape. It returns a
    feature vector only when it has written no error message, and it returns
    [None] exactly when it has written one message, which starts with
    "Error in preprocessing: " and is the last thing it did. *)
Theorem preprocess_input_reports_failure (data : DataFrame) (self : SleepDisorderApp) :
  match (preprocess_input data self).2 with
  | Ok (Some _) => List.filter is_error (preprocess_input data self).1.2 = []
  | Ok None =>
      ∃ tr msg,
        (preprocess_input data self).1.2
        = tr ++ [st_error ("Error in preprocessing: " +:+ msg)]
        ∧ List.filter is_error tr = []
  | Raise e => is_Exception e = false
  end.
Proof.
  rewrite preprocess_input_eq.
  destruct (derived_frame data) as [X|e].
  - destruct (preprocessor self) as [p|];
      [|by exists [], ("'SleepDisorderApp' object has no attribute '"
                      +:+ "preprocessor" +:+ "'")].
    destruct (Preprocessor.transform p X) as [p' [features|e]]; [reflexivity|].
    unfold handled. destruct (is_Exception e) eqn:He; cbn [fst snd]; [|done].
    by exists [preprocessor_transform X], (str e).
  - unfold handled. destruct (is_Exception e) eqn:He; cbn [fst snd]; [|done].
    by exists [], (str e).
Qed.

Lemma getitem_missing (data : DataFrame) (name : string) :
  pd.has_column data name = false →
  pd.getitem data name = Raise (Exn KeyError ("'" +:+ name +:+ "'")).
Proof.
  unfold pd.has_column, pd.columns.
  induction data as [|[n c] data IH]; [reflexivity|].
  cbn. rewrite (String.eqb_sym name n).
  destruct (String.eqb n name); [discriminate|]. exact IH.
Qed.

(** X5. On a frame without the column "Sleep Duration",
    [preprocess_input] returns [None], writes the one message
    "Error in preprocessing: 'Sleep Duration'", does not call the loaded
    transformer and leaves the application as it was. *)
Theorem preprocess_input_missing_hours (data : DataFrame) (self : SleepDisorderApp)
    (Hmissing : pd.has_column data "Sleep Duration" = false) :
  preprocess_input data self
  = (self, [st_error "Error in preprocessing: 'Sleep Duration'"], Ok None).
Proof.
  rewrite preprocess_input_eq. unfold derived_frame.
  by rewrite (getitem_missing data "Sleep Duration" Hmissing).
Qed.

Lemma preprocess_input_missing_hours_witness :
  preprocess_input [("Age", Int64Col [30]); ("Gender", ObjectCol ["Male"])]
    (example_app example_preprocessor)
  = (example_app example_preprocessor,
     [st_error "Error in preprocessing: 'Sleep Duration'"], Ok None).
Proof.
  apply (preprocess_input_missing_hours
           [("Age", Int64Col [30]); ("Gender", ObjectCol ["Male"])]
           (example_app example_preprocessor) eq_refl).
Defined.

(** X6. Line 114 writes the new column into the frame it was given. On a
    frame whose column names are distinct (as those of every frame built
    from a dict are), calling [preprocess_input] again on that very frame,
    which now also holds "Sleep Duration Sqrt", does what the call on the
    original frame does. *)
Theorem preprocess_input_on_mutated_frame
    (data : DataFrame) (hours root : column) (self : SleepDisorderApp)
    (Hnames : NoDup (pd.columns data))
    (Hhours : pd.getitem data "Sleep Duration" = Ok hours)
    (Hroot : np.sqrt hours = Ok root) :
  preprocess_input (pd.setitem data "Sleep Duration Sqrt" root) self
  = preprocess_input data self.
Proof.
  rewrite !preprocess_input_eq.
  by rewrite (derived_frame_of_mutated data hours root Hhours Hroot).
Qed.

Lemma preprocess_input_on_mutated_frame_witness :
  NoDup (pd.columns (pd_DataFrame (session_submission filled OCCUPATIONS_value
                                     BMI_CATEGORIES_value)))
  ∧ preprocess_input
      (pd.setitem
         (pd_DataFrame (session_submission filled OCCUPATIONS_value BMI_CATEGORIES_value))
         "Sleep Duration Sqrt"
         (Float64Col [SFsqrt prec emax (float_lit 13 (-1))]))
      (example_app example_preprocessor)
    = preprocess_input
        (pd_DataFrame (session_submission filled OCCUPATIONS_value BMI_CATEGORIES_value))
        (example_app example_preprocessor).
Proof.
  assert (Hnames : NoDup (pd.columns (pd_DataFrame (session_submission filled
                            OCCUPATIONS_value BMI_CATEGORIES_value)))).
  { apply (bool_decide_unpack _). vm_compute. reflexivity. }
  split; [exact Hnames|].
  apply (preprocess_input_on_mutated_frame
           (pd_DataFrame (session_submission filled OCCUPATIONS_value BMI_CATEGORIES_value))
           (Float64Col [float_lit 13 (-1)])
           (Float64Col [SFsqrt prec emax (float_lit 13 (-1))])
           (example_app example_preprocessor) Hnames eq_refl eq_refl).
Defined.

Lemma getitem_setitem_eq (data : DataFrame) (name : string) (c : column) :
  pd.getitem (pd.setitem data name c) name = Ok c.
Proof.
  induction data as [|[n c'] data IH]; cbn [pd.setitem pd.getitem].
  - by rewrite String.eqb_refl.
  - destruct (String.eqb n name) eqn:Hn; cbn [pd.getitem]; by rewrite Hn.
Qed.

Lemma getitem_filter_ne (data : DataFrame) (name other : string) :
  String.eqb other name = false →
  pd.getitem (List.filter (λ nc, negb (String.eqb nc.1 name)) data) other
  = pd.getitem data other.
Proof.
  intros Hne. induction data as [|[n c] data IH]; [reflexivity|].
  cbn [List.filter fst pd.getitem].
  destruct (String.eqb n name) eqn:Hn; cbn [negb pd.getitem].
  - apply String.eqb_eq in Hn as ->.
    by rewrite String.eqb_sym, Hne.
  - by rewrite IH.
Qed.

Lemma derived_frame_getitem (data X : DataFrame) :
  derived_frame data = Ok X →
  pd.getitem X "Sleep Duration Sqrt"
  = and_then (pd.getitem data "Sleep Duration") np.sqrt
  ∧ ∀ name, String.eqb name "Sleep Duration" = false →
            String.eqb name "Sleep Duration Sqrt" = false →
            pd.getitem X name = pd.getitem data name.
Proof.
  unfold derived_frame, pd.drop.
  destruct (pd.getitem data "Sleep Duration") as [hours|e]; [|discriminate].
  cbn [and_then]. destruct (np.sqrt hours) as [root|e]; [|discriminate].
  cbn [and_then]. destruct (pd.has_column _ _); [|discriminate].
  intros [= <-]. split.
  - rewrite getitem_filter_ne by reflexivity. apply getitem_setitem_eq.
  - intros name Hname Hsqrt. rewrite getitem_filter_ne by exact Hname.
    apply getitem_setitem_ne. by rewrite String.eqb_sym.
Qed.

(** X7. Whatever frame [preprocess_input] is given, the frame it passes to
    the loaded transformer holds, under "Sleep Duration Sqrt", the square
    root of the given "Sleep Duration" column, and under every other name
    than these two exactly the column that the given frame holds. *)
Theorem preprocess_input_keeps_other_columns
    (data X : DataFrame) (self : SleepDisorderApp)
    (Hcall : X ∈ transform_calls (preprocess_input data self).1.2) :
  pd.getitem X "Sleep Duration Sqrt"
  = and_then (pd.getitem data "Sleep Duration") np.sqrt
  ∧ ∀ name, String.eqb name "Sleep Duration" = false →
            String.eqb name "Sleep Duration Sqrt" = false →
            pd.getitem X name = pd.getitem data name.
Proof.
  rewrite preprocess_input_transform_calls in Hcall.
  destruct (derived_frame data) as [X'|e] eqn:Hd; [|by apply elem_of_nil in Hcall].
  destruct (preprocessor self); [|by apply elem_of_nil in Hcall].
  apply list_elem_of_singleton in Hcall as ->.
  by apply derived_frame_getitem.
Qed.

Lemma preprocess_input_keeps_other_columns_witness :
  pd.getitem
    (submission_sqrt "Male" 30 (float_lit 15 (-1)) "Others" 7 30 5
       "Normal Weight" 120 80 70 10000)
    "Sleep Duration Sqrt"
  = and_then
      (pd.getitem
         (pd_DataFrame (session_submission untouched OCCUPATIONS_value BMI_CATEGORIES_value))
         "Sleep Duration")
      np.sqrt
  ∧ ∀ name, String.eqb name "Sleep Duration" = false →
            String.eqb name "Sleep Duration Sqrt" = false →
            pd.getitem
              (submission_sqrt "Male" 30 (float_lit 15 (-1)) "Others" 7 30 5
                 "Normal Weight" 120 80 70 10000)
              name
            = pd.getitem
                (pd_DataFrame
                   (session_submission untouched OCCUPATIONS_value BMI_CATEGORIES_value))
                name.
Proof.
  apply (preprocess_input_keeps_other_columns
           (pd_DataFrame (session_submission untouched OCCUPATIONS_value BMI_CATEGORIES_value))
           (submission_sqrt "Male" 30 (float_lit 15 (-1)) "Others" 7 30 5
              "Normal Weight" 120 80 70 10000)
           (example_app example_preprocessor)).
  apply list_elem_of_singleton. reflexivity.
Defined.

(** ** [run], step by step *)

Lemma display_prediction_eq prediction (self : SleepDisorderApp) mapping :
  DISORDER_MAPPING self = Some mapping →
  display_prediction prediction self =
  match prediction with
  | None => (self, [], Ok tt)
  | Some [] =>
      (self, [],
       Raise (Exn IndexError "index 0 is out of bounds for axis 0 with size 0"))
  | Some (l :: _) => (self, prediction_events mapping l, Ok tt)
  end.
Proof.
  intros Hmap. destruct prediction as [[|l rest]|]; [| |reflexivity];
    unfold display_prediction, prediction_events, bind, getattr, lift, emit;
    rewrite Hmap; [reflexivity|]. cbn [first_label].
  destruct (dict_get mapping l ("Unknown", "gray")) as [disorder color].
  cbv beta iota. rewrite display_recommendations_events. reflexivity.
Qed.

Lemma display_prediction_state prediction (self : SleepDisorderApp) :
  (display_prediction prediction self).1.1 = self.
Proof.
  destruct (DISORDER_MAPPING self) as [mapping|] eqn:Hmap.
  - rewrite (display_prediction_eq prediction self mapping Hmap).
    by destruct prediction as [[|l rest]|].
  - destruct prediction as [prediction|]; [|reflexivity].
    unfold display_prediction, bind, getattr. by rewrite Hmap.
Qed.

Lemma predict_and_display_eq (features : Features) (self : SleepDisorderApp) :
  predict_and_display features self =
  match model self with
  | None =>
      (self,
       [st_error ("Error making prediction: "
                  +:+ "'SleepDisorderApp' object has no attribute '"
                  +:+ "model" +:+ "'")],
       Ok tt)
  | Some m =>
      match predict m features with
      | Raise e =>
          if is_Exception e
          then (self,
                [model_predict features;
                 st_error ("Error making prediction: " +:+ str e)],
                Ok tt)
          else (self, [model_predict features], Raise e)
      | Ok prediction =>
          match display_prediction prediction self with
          | (self2, tr2, Ok _) => (self2, model_predict features :: tr2, Ok tt)
          | (self2, tr2, Raise e) =>
              if is_Exception e
              then (self2,
                    model_predict features
                    :: tr2 ++ [st_error ("Error making prediction: " +:+ str e)],
                    Ok tt)
              else (self2, model_predict features :: tr2, Raise e)
          end
      end
  end.
Proof.
  unfold predict_and_display, try_except, call_model.
  unfold bind at 1 2 3, getattr, emit at 1, lift.
  destruct (model self) as [m|]; [|reflexivity].
  destruct (predict m features) as [prediction|e];
    [|by destruct (is_Exception e)].
  destruct (display_prediction prediction self) as [[self2 tr2] [[]|e]];
    [reflexivity|].
  unfold emit. by destruct (is_Exception e).
Qed.

Lemma run_eq (s : Session) (self : SleepDisorderApp) :
  run s self =
  match get_user_input s self with
  | (self0, tr0, Raise e) => (self0, run_title :: tr0, Raise e)
  | (self0, tr0, Ok (false, _)) => (self0, run_title :: tr0, Ok tt)
  | (self0, tr0, Ok (true, input_data)) =>
      match preprocess_input (pd_DataFrame input_data) self0 with
      | (self1, tr1, Raise e) =>
          (self1,
           run_title :: tr0 ++ st_spinner "Analyzing sleep patterns..." :: tr1,
           Raise e)
      | (self1, tr1, Ok None) =>
          (self1,
           run_title :: tr0 ++ st_spinner "Analyzing sleep patterns..." :: tr1,
           Ok tt)
      | (self1, tr1, Ok (Some features)) =>
          let '(self2, tr2, r) := predict_and_display features self1 in
          (self2,
           run_title :: tr0 ++ st_spinner "Analyzing sleep patterns..."
                               :: tr1 ++ tr2,
           r)
      end
  end.
Proof.
  unfold run. unfold bind at 1 2, emit at 1.
  destruct (get_user_input s self) as [[self0 tr0] [[submit input_data]|e]];
    [|reflexivity].
  destruct submit; [|by unfold ret; rewrite app_nil_r].
  unfold bind at 1 2, emit at 1.
  destruct (preprocess_input (pd_DataFrame input_data) self0)
    as [[self1 tr1] [[features|]|e]]; [| |reflexivity].
  - change (try_except _ _ _ self1) with (predict_and_display features self1).
    by destruct (predict_and_display features self1) as [[self2 tr2] r].
  - unfold ret. by rewrite app_nil_r.
Qed.

Lemma preprocess_input_submission (s : Session) (self : SleepDisorderApp)
    occupations bmi_categories p :
  preprocessor self = Some p →
  preprocess_input (pd_DataFrame (session_submission s occupations bmi_categories)) self
  = let X := session_submission_sqrt s occupations bmi_categories in
    let '(p', r) := Preprocessor.transform p X in
    match r with
    | Ok features =>
        (set_preprocessor p' self, [preprocessor_transform X], Ok (Some features))
    | Raise e =>
        (set_preprocessor p' self,
         preprocessor_transform X :: (handled e).1, (handled e).2)
    end.
Proof.
  intros Hp. rewrite preprocess_input_eq. unfold session_submission.
  rewrite derived_frame_submission, Hp. reflexivity.
Qed.

(** The run of a submitted form whose record the transformer accepts, up
    to the guarded call of the classifier. *)
Lemma run_submitted_eq (s : Session) (self : SleepDisorderApp)
    occupations bmi_categories p p' features :
  OCCUPATIONS self = Some occupations →
  BMI_CATEGORIES self = Some bmi_categories →
  clicked s "Predict Sleep Disorder" = true →
  preprocessor self = Some p →
  Preprocessor.transform p (session_submission_sqrt s occupations bmi_categories)
  = (p', Ok features) →
  run s self =
  let '(self2, tr2, r) := predict_and_display features (set_preprocessor p' self) in
  (self2,
   run_title :: form_widgets occupations bmi_categories
     ++ st_spinner "Analyzing sleep patterns..."
        :: [preprocessor_transform
              (session_submission_sqrt s occupations bmi_categories)]
        ++ tr2,
   r).
Proof.
  intros Ho Hb Hclick Hp Htransform.
  rewrite run_eq, (get_user_input_eq s self _ _ Ho Hb), Hclick.
  rewrite (preprocess_input_submission s self _ _ p Hp).
  cbv zeta. by rewrite Htransform.
Qed.

Lemma get_user_input_state (s : Session) (self : SleepDisorderApp) :
  (get_user_input s self).1.1 = self.
Proof.
  unfold_form.
  destruct (OCCUPATIONS self); [|reflexivity].
  by destruct (BMI_CATEGORIES self).
Qed.

Lemma preprocess_input_raises (data : DataFrame) (self : SleepDisorderApp) e :
  (preprocess_input data self).2 = Raise e → is_Exception e = false.
Proof.
  rewrite preprocess_input_eq.
  destruct (derived_frame data) as [X|e'].
  - destruct (preprocessor self) as [p|]; [|discriminate].
    destruct (Preprocessor.transform p X) as [p' [features|e']]; [discriminate|].
    unfold handled. destruct (is_Exception e') eqn:He; [discriminate|].
    by intros [= <-].
  - unfold handled. destruct (is_Exception e') eqn:He; [discriminate|].
    by intros [= <-].
Qed.

Lemma preprocess_input_state (data : DataFrame) (self : SleepDisorderApp) :
  (preprocess_input data self).1.1 = self
  ∨ ∃ p', (preprocess_input data self).1.1 = set_preprocessor p' self.
Proof.
  rewrite preprocess_input_eq.
  destruct (derived_frame data) as [X|e]; [|by left].
  destruct (preprocessor self) as [p|]; [|by left].
  destruct (Preprocessor.transform p X) as [p' [features|e]]; right; by exists p'.
Qed.

Lemma predict_and_display_state (features : Features) (self : SleepDisorderApp) :
  (predict_and_display features self).1.1 = self.
Proof.
  rewrite predict_and_display_eq.
  destruct (model self) as [m|]; [|reflexivity].
  destruct (predict m features) as [prediction|e];
    [|by destruct (is_Exception e)].
  pose proof (display_prediction_state prediction self) as Hstate.
  destruct (display_prediction prediction self) as [[self2 tr2] [[]|e]];
    cbn [fst snd] in *; [done|]. by destruct (is_Exception e).
Qed.

Lemma predict_and_display_raises (features : Features) (self : SleepDisorderApp) e :
  (predict_and_display features self).2 = Raise e → is_Exception e = false.
Proof.
  rewrite predict_and_display_eq.
  destruct (model self) as [m|]; [|discriminate].
  destruct (predict m features) as [prediction|e'].
  - destruct (display_prediction prediction self) as [[self2 tr2] [[]|e']];
      [discriminate|].
    destruct (is_Exception e') eqn:He; [discriminate|]. by intros [= <-].
  - destruct (is_Exception e') eqn:He; [discriminate|]. by intros [= <-].
Qed.

(** ** What [run] does *)

(** X8. Until the form is submitted, [run] writes the title and the form
    and nothing else: no spinner, no call of the transformer or of the
    classifier, no message; the application is left as it was. *)
Theorem run_without_submit (s : Session) (self : SleepDisorderApp)
    occupations bmi_categories
    (Hocc : OCCUPATIONS self = Some occupations)
    (Hbmi : BMI_CATEGORIES self = Some bmi_categories)
    (Hclick : clicked s "Predict Sleep Disorder" = false) :
  run s self = (self, run_title :: form_widgets occupations bmi_categories, Ok tt).
Proof.
  by rewrite run_eq, (get_user_input_eq s self _ _ Hocc Hbmi), Hclick.
Qed.

Lemma run_without_submit_witness :
  run not_submitted (app_with example_model example_preprocessor)
  = (app_with example_model example_preprocessor,
     run_title :: form_widgets OCCUPATIONS_value BMI_CATEGORIES_value, Ok tt).
Proof.
  apply (run_without_submit not_submitted
           (app_with example_model example_preprocessor)
           OCCUPATIONS_value BMI_CATEGORIES_value eq_refl eq_refl eq_refl).
Defined.

(** X9. With the constants set up, no [Exception] leaves [run]: whatever
    the session, the loaded transformer and the classifier do, [run]
    returns normally, unless something raised is not an [Exception]. *)
Theorem run_catches_exceptions (s : Session) (self : SleepDisorderApp) :
  match (run s (with_constants self)).2 with
  | Ok _ => True
  | Raise e => is_Exception e = false
  end.
Proof.
  rewrite run_eq.
  rewrite (get_user_input_eq s (with_constants self)
             OCCUPATIONS_value BMI_CATEGORIES_value eq_refl eq_refl).
  destruct (clicked s "Predict Sleep Disorder"); [|done].
  pose proof (preprocess_input_raises
    (pd_DataFrame (session_submission s OCCUPATIONS_value BMI_CATEGORIES_value))
    (with_constants self)) as Hpre.
  destruct (preprocess_input _ (with_constants self))
    as [[self1 tr1] [[features|]|e]]; cbn [fst snd] in *; [|done|by apply Hpre].
  pose proof (predict_and_display_raises features self1) as Hcall.
  destruct (predict_and_display features self1) as [[self2 tr2] [[]|e]];
    cbn [fst snd] in *; [done|by apply Hcall].
Qed.

(** X10. When the classifier's [predict] raises an [Exception], [run]
    writes, after the call, the one message "Error making prediction: "
    followed by the exception's text, displays no result, and returns
    normally. *)
Theorem run_reports_predict_failure (s : Session) (self : SleepDisorderApp)
    occupations bmi_categories m p p' features e
    (Hocc : OCCUPATIONS self = Some occupations)
    (Hbmi : BMI_CATEGORIES self = Some bmi_categories)
    (Hclick : clicked s "Predict Sleep Disorder" = true)
    (Hmodel : model self = Some m)
    (Hprep : preprocessor self = Some p)
    (Htransform :
       Preprocessor.transform p (session_submission_sqrt s occupations bmi_categories)
       = (p', Ok features))
    (Hpredict : predict m features = Raise e)
    (Hexn : is_Exception e = true) :
  run s self
  = (set_preprocessor p' self,
     run_title :: form_widgets occupations bmi_categories
       ++ [st_spinner "Analyzing sleep patterns...";
           preprocessor_transform
             (session_submission_sqrt s occupations bmi_categories);
           model_predict features;
           st_error ("Error making prediction: " +:+ str e)],
     Ok tt).
Proof.
  rewrite (run_submitted_eq s self _ _ p p' features Hocc Hbmi Hclick Hprep Htransform).
  rewrite predict_and_display_eq. cbn [model set_preprocessor].
  by rewrite Hmodel, Hpredict, Hexn.
Qed.

Lemma run_reports_predict_failure_witness :
  run untouched
    (app_with (constant_model (Raise (Exn OtherException "not fitted")))
       example_preprocessor)
  = (set_preprocessor example_preprocessor_after
       (app_with (constant_model (Raise (Exn OtherException "not fitted")))
          example_preprocessor),
     run_title :: form_widgets OCCUPATIONS_value BMI_CATEGORIES_value
       ++ [st_spinner "Analyzing sleep patterns...";
           preprocessor_transform
             (session_submission_sqrt untouched OCCUPATIONS_value BMI_CATEGORIES_value);
           model_predict example_features;
           st_error ("Error making prediction: "
                     +:+ str (Exn OtherException "not fitted"))],
     Ok tt).
Proof.
  apply (run_reports_predict_failure untouched
           (app_with (constant_model (Raise (Exn OtherException "not fitted")))
              example_preprocessor)
           OCCUPATIONS_value BMI_CATEGORIES_value
           (constant_model (Raise (Exn OtherException "not fitted")))
           example_preprocessor example_preprocessor_after example_features
           (Exn OtherException "not fitted")
           eq_refl eq_refl eq_refl eq_refl eq_refl);
    [vm_compute; reflexivity|reflexivity|reflexivity].
Defined.

(** X11. A prediction that is [None] is displayed as nothing at all, and
    an empty prediction makes [prediction[0]] raise, which [run] reports as
    "Error making prediction: " with the index error's text; in both cases
    [run] returns normally. *)
Theorem run_without_label (s : Session) (self : SleepDisorderApp)
    occupations bmi_categories mapping m p p' features
    (Hocc : OCCUPATIONS self = Some occupations)
    (Hbmi : BMI_CATEGORIES self = Some bmi_categories)
    (Hmap : DISORDER_MAPPING self = Some mapping)
    (Hclick : clicked s "Predict Sleep Disorder" = true)
    (Hmodel : model self = Some m)
    (Hprep : preprocessor self = Some p)
    (Htransform :
       Preprocessor.transform p (session_submission_sqrt s occupations bmi_categories)
       = (p', Ok features)) :
  (predict m features = Ok None →
   run s self
   = (set_preprocessor p' self,
      run_title :: form_widgets occupations bmi_categories
        ++ [st_spinner "Analyzing sleep patterns...";
            preprocessor_transform
              (session_submission_sqrt s occupations bmi_categories);
            model_predict features],
      Ok tt))
  ∧ (predict m features = Ok (Some []) →
     run s self
     = (set_preprocessor p' self,
        run_title :: form_widgets occupations bmi_categories
          ++ [st_spinner "Analyzing sleep patterns...";
              preprocessor_transform
                (session_submission_sqrt s occupations bmi_categories);
              model_predict features;
              st_error ("Error making prediction: "
                        +:+ "index 0 is out of bounds for axis 0 with size 0")],
        Ok tt)).
Proof.
  rewrite (run_submitted_eq s self _ _ p p' features Hocc Hbmi Hclick Hprep Htransform).
  rewrite predict_and_display_eq. cbn [model set_preprocessor]. rewrite Hmodel.
  split; intros ->;
    by rewrite (display_prediction_eq _ (set_preprocessor p' self) mapping Hmap).
Qed.

Lemma run_without_label_witness :
  run untouched (app_with (constant_model (Ok (Some []))) example_preprocessor)
  = (set_preprocessor example_preprocessor_after
       (app_with (constant_model (Ok (Some []))) example_preprocessor),
     run_title :: form_widgets OCCUPATIONS_value BMI_CATEGORIES_value
       ++ [st_spinner "Analyzing sleep patterns...";
           preprocessor_transform
             (session_submission_sqrt untouched OCCUPATIONS_value BMI_CATEGORIES_value);
           model_predict example_features;
           st_error ("Error making prediction: "
                     +:+ "index 0 is out of bounds for axis 0 with size 0")],
     Ok tt).
Proof.
  apply (proj2 (run_without_label untouched
                  (app_with (constant_model (Ok (Some []))) example_preprocessor)
                  OCCUPATIONS_value BMI_CATEGORIES_value DISORDER_MAPPING_value
                  (constant_model (Ok (Some [])))
                  example_preprocessor example_preprocessor_after example_features
                  eq_refl eq_refl eq_refl eq_refl eq_refl eq_refl
                  ltac:(vm_compute; reflexivity))).
  reflexivity.
Defined.

(** X12. From the submitted form to the display: when the loaded
    transformer accepts the record and the classifier returns a label,
    [run] writes, in this order, the title, the form, the spinner, then
    calls the transformer on the record with the square root, calls the
    classifier on the features the transformer returned, and displays the
    result for the first label; it returns normally and changes nothing of
    [self] but the loaded transformer. *)
Theorem run_displays_prediction (s : Session) (self : SleepDisorderApp)
    occupations bmi_categories mapping m p p' features l rest
    (Hocc : OCCUPATIONS self = Some occupations)
    (Hbmi : BMI_CATEGORIES self = Some bmi_categories)
    (Hmap : DISORDER_MAPPING self = Some mapping)
    (Hclick : clicked s "Predict Sleep Disorder" = true)
    (Hmodel : model self = Some m)
    (Hprep : preprocessor self = Some p)
    (Htransform :
       Preprocessor.transform p (session_submission_sqrt s occupations bmi_categories)
       = (p', Ok features))
    (Hpredict : predict m features = Ok (Some (l :: rest))) :
  run s self
  = (set_preprocessor p' self,
     run_title :: form_widgets occupations bmi_categories
       ++ [st_spinner "Analyzing sleep patterns...";
           preprocessor_transform
             (session_submission_sqrt s occupations bmi_categories);
           model_predict features]
       ++ prediction_events mapping l,
     Ok tt).
Proof.
  rewrite (run_submitted_eq s self _ _ p p' features Hocc Hbmi Hclick Hprep Htransform).
  rewrite predict_and_display_eq. cbn [model set_preprocessor].
  rewrite Hmodel, Hpredict.
  by rewrite (display_prediction_eq _ (set_preprocessor p' self) mapping Hmap).
Qed.

Lemma run_displays_prediction_witness :
  run untouched (app_with example_model example_preprocessor)
  = (set_preprocessor example_preprocessor_after
       (app_with example_model example_preprocessor),
     run_title :: form_widgets OCCUPATIONS_value BMI_CATEGORIES_value
       ++ [st_spinner "Analyzing sleep patterns...";
           preprocessor_transform
             (session_submission_sqrt untouched OCCUPATIONS_value BMI_CATEGORIES_value);
           model_predict example_features]
       ++ prediction_events DISORDER_MAPPING_value (LFloat (float_lit 1 0)),
     Ok tt).
Proof.
  apply (run_displays_prediction untouched
           (app_with example_model example_preprocessor)
           OCCUPATIONS_value BMI_CATEGORIES_value DISORDER_MAPPING_value
           example_model example_preprocessor example_preprocessor_after
           example_features (LFloat (float_lit 1 0)) []
           eq_refl eq_refl eq_refl eq_refl eq_refl eq_refl
           ltac:(vm_compute; reflexivity) eq_refl).
Defined.

(** X13. [run] changes nothing of the application but the classes that
    the label encoders of the loaded transformer were last fitted on: the
    classifier, the three constants and the layout of the transformer are
    after [run] what they were before. *)
Theorem run_keeps_application (s : Session) (self : SleepDisorderApp) :
  model (run s self).1.1 = model self
  ∧ OCCUPATIONS (run s self).1.1 = OCCUPATIONS self
  ∧ BMI_CATEGORIES (run s self).1.1 = BMI_CATEGORIES self
  ∧ DISORDER_MAPPING (run s self).1.1 = DISORDER_MAPPING self
  ∧ same_artifacts self (run s self).1.1.
Proof.
  assert (Hpre : ∀ data,
    model (preprocess_input data self).1.1 = model self
    ∧ OCCUPATIONS (preprocess_input data self).1.1 = OCCUPATIONS self
    ∧ BMI_CATEGORIES (preprocess_input data self).1.1 = BMI_CATEGORIES self
    ∧ DISORDER_MAPPING (preprocess_input data self).1.1 = DISORDER_MAPPING self
    ∧ same_artifacts self (preprocess_input data self).1.1).
  { intros data. pose proof (preprocess_input_keeps_artifacts data self) as Hkeep.
    destruct (preprocess_input_state data self) as [Hst|[p' Hst]];
      rewrite Hst in *; by repeat split. }
  rewrite run_eq. pose proof (get_user_input_state s self) as Hform.
  destruct (get_user_input s self) as [[self0 tr0] [[[] input_data]|e]];
    cbn [fst snd] in Hform; subst self0; try (by repeat split).
  specialize (Hpre (pd_DataFrame input_data)).
  destruct (preprocess_input (pd_DataFrame input_data) self)
    as [[self1 tr1] [[features|]|e]]; cbn [fst snd] in *; try exact Hpre.
  pose proof (predict_and_display_state features self1) as Hcall.
  destruct (predict_and_display features self1) as [[self2 tr2] r].
  cbn [fst snd] in *. by subst self2.
Qed.

(** ** What is displayed for a label *)

(** X14. [display_prediction] looks at the first label only, and what it
    writes has one of two shapes: for a label that equals no key of the
    table, the heading and the name "Unknown" and nothing else (two
    elements); for any other label, the heading, the name, the
    recommendations heading and four recommendations (seven elements). *)
Theorem display_prediction_two_shapes (l : label) (rest : list label)
    (self : SleepDisorderApp) :
  display_prediction (Some (l :: rest)) (with_constants self)
  = display_prediction (Some [l]) (with_constants self)
  ∧ ((mapResult l = ("Unknown", "gray")
      ∧ length (display_prediction (Some (l :: rest)) (with_constants self)).1.2
        = 2%nat)
     ∨ ((mapResult l).1 ∈ ["Insomnia"; "No Disorder"; "Sleep Apnea"]
        ∧ length (display_prediction (Some (l :: rest)) (with_constants self)).1.2
          = 7%nat)).
Proof.
  rewrite !(display_prediction_eq _ (with_constants self) DISORDER_MAPPING_value eq_refl).
  split; [reflexivity|]. cbn [fst snd].
  unfold prediction_events, mapResult, DISORDER_MAPPING_value. cbn [dict_get].
  destruct (key_eqb l (float_lit 0 0));
    [right; split; [set_solver|reflexivity]|].
  destruct (key_eqb l (float_lit 1 0));
    [right; split; [set_solver|reflexivity]|].
  destruct (key_eqb l (float_lit 2 0));
    [right; split; [set_solver|reflexivity]|].
  left. by split.
Qed.

(** X15. The lookup compares numbers by value and nothing else: an
    integer label 0, 1 or 2 is mapped like the float key it equals and every
    other integer to "Unknown"; a label that is a string, the text "1.0"
    included, is always "Unknown"; both zeros are "Insomnia"; NaN and the
    infinities are "Unknown". *)
Theorem mapResult_by_kind :
  (∀ z, mapResult (LInt z)
        = if z =? 0 then ("Insomnia", "red")
          else if z =? 1 then ("No Disorder", "green")
          else if z =? 2 then ("Sleep Apnea", "orange")
          else ("Unknown", "gray"))
  ∧ (∀ s, mapResult (LStr s) = ("Unknown", "gray"))
  ∧ (∀ sign, mapResult (LFloat (S754_zero sign)) = ("Insomnia", "red"))
  ∧ mapResult (LFloat S754_nan) = ("Unknown", "gray")
  ∧ (∀ sign, mapResult (LFloat (S754_infinity sign)) = ("Unknown", "gray")).
Proof.
  split; [|split; [|split; [|split]]].
  - intros z. unfold mapResult, DISORDER_MAPPING_value. cbn [dict_get key_eqb].
    change (float_to_int (float_lit 0 0)) with (Some 0).
    change (float_to_int (float_lit 1 0)) with (Some 1).
    change (float_to_int (float_lit 2 0)) with (Some 2).
    reflexivity.
  - reflexivity.
  - by intros [].
  - reflexivity.
  - by intros [].
Qed.

(** ** Starting up *)

Lemma append_assoc (a b c : string) : (a +:+ b) +:+ c = a +:+ (b +:+ c).
Proof.
  induction a as [|ch a IH]; [reflexivity|].
  change (String ch ((a +:+ b) +:+ c) = String ch (a +:+ (b +:+ c))).
  by rewrite IH.
Qed.

Lemma set_default_style_sheet (self : SleepDisorderApp) :
  ∃ sheet, set_default_style self = (self, [sheet], Ok tt) ∧ is_style_sheet sheet.
Proof. eexists. split; [reflexivity|]. by eexists. Qed.

Lemma set_background_style_sheet encoded_string (self : SleepDisorderApp) :
  ∃ sheet, set_background_style encoded_string self = (self, [sheet], Ok tt)
           ∧ is_style_sheet sheet.
Proof.
  eexists. split; [reflexivity|]. unfold is_style_sheet.
  eexists. f_equal. rewrite <- !append_assoc. reflexivity.
Qed.

Lemma setup_style_eq (env : Env) (self : SleepDisorderApp) :
  (∀ e, Background_jpg env = Unreadable e → is_Exception e = true) →
  ∃ warnings sheet,
    setup_style env self = (self, warnings ++ [sheet], Ok tt)
    ∧ is_style_sheet sheet
    ∧ (warnings = []
       ∨ ∃ e, Background_jpg env = Unreadable e
              ∧ warnings = [st_warning ("Could not load background image: "
                                        +:+ str e)]).
Proof.
  intros Hbg. unfold setup_style, try_except.
  destruct (Background_jpg env) as [|e|encoded_string] eqn:Hfile.
  - destruct (set_default_style_sheet self) as (sheet & -> & Hsheet).
    exists [], sheet. split; [reflexivity|]. split; [done|by left].
  - unfold raise. rewrite (Hbg e eq_refl). unfold bind, emit.
    destruct (set_default_style_sheet self) as (sheet & -> & Hsheet).
    exists [st_warning ("Could not load background image: " +:+ str e)], sheet.
    split; [reflexivity|]. split; [done|]. right. by exists e.
  - destruct (set_background_style_sheet encoded_string self)
      as (sheet & -> & Hsheet).
    exists [], sheet. split; [reflexivity|]. split; [done|by left].
Qed.

(** X16. [setup_style] does not fail on the background image: when the
    image is missing, or reading it raises an [Exception], it still ends by
    writing one style sheet, which holds the common styles, and returns
    normally with the application unchanged; it writes a warning before the
    style sheet only when reading the image raised. *)
Theorem setup_style_always_styles (env : Env) (self : SleepDisorderApp)
    (Hbg : ∀ e, Background_jpg env = Unreadable e → is_Exception e = true) :
  ∃ warnings sheet,
    setup_style env self = (self, warnings ++ [sheet], Ok tt)
    ∧ is_style_sheet sheet
    ∧ (warnings = []
       ∨ ∃ e, Background_jpg env = Unreadable e
              ∧ warnings = [st_warning ("Could not load background image: "
                                        +:+ str e)]).
Proof.
  unfold setup_style, try_except.
  destruct (Background_jpg env) as [|e|encoded_string] eqn:Hfile.
  - destruct (set_default_style_sheet self) as (sheet & -> & Hsheet).
    exists [], sheet. split; [reflexivity|]. split; [done|by left].
  - unfold raise. rewrite (Hbg e eq_refl). unfold bind, emit.
    destruct (set_default_style_sheet self) as (sheet & -> & Hsheet).
    exists [st_warning ("Could not load background image: " +:+ str e)], sheet.
    split; [reflexivity|]. split; [done|]. right. by exists e.
  - destruct (set_background_style_sheet encoded_string self)
      as (sheet & -> & Hsheet).
    exists [], sheet. split; [reflexivity|]. split; [done|by left].
Qed.

Lemma setup_style_always_styles_witness :
  ∃ warnings sheet,
    setup_style unreadable_background_env new_app
    = (new_app, warnings ++ [sheet], Ok tt)
    ∧ is_style_sheet sheet
    ∧ (warnings = []
       ∨ ∃ e, Background_jpg unreadable_background_env = Unreadable e
              ∧ warnings = [st_warning ("Could not load background image: "
                                        +:+ str e)]).
Proof.
  apply (setup_style_always_styles unreadable_background_env new_app).
  intros e [= <-]. reflexivity.
Defined.

Lemma init_stored (env : Env) m p :
  sleep_disorder_random_forest_model_pkl env = Stored m →
  preprocessor_pkl env = Stored p →
  init env new_app
  = let '(self2, tr2, r) :=
      setup_style env (with_constants (set_preprocessor p (set_model m new_app))) in
    (self2, tr2, r).
Proof.
  intros Hm Hp. rewrite init_eq, load_models_eq, Hm, Hp. cbn [joblib_load].
  by destruct (setup_style env _) as [[self2 tr2] r].
Qed.

(** X17. With both artifact files in place, [__init__] succeeds whatever
    the state of the background image (present, missing, or unreadable with
    an [Exception]): it returns normally, with the classifier, the
    transformer and the three constants set, having written no error
    message and called neither artifact. *)
Theorem init_with_artifacts (env : Env) (m : Classifier) (p : Preprocessor.t)
    (Hmodel : sleep_disorder_random_forest_model_pkl env = Stored m)
    (Hprep : preprocessor_pkl env = Stored p)
    (Hbg : ∀ e, Background_jpg env = Unreadable e → is_Exception e = true) :
  ∃ tr,
    init env new_app
    = ({| model := Some m; preprocessor := Some p;
          OCCUPATIONS := Some OCCUPATIONS_value;
          BMI_CATEGORIES := Some BMI_CATEGORIES_value;
          DISORDER_MAPPING := Some DISORDER_MAPPING_value |},
       tr, Ok tt)
    ∧ List.filter is_error tr = []
    ∧ predict_calls tr = []
    ∧ transform_calls tr = [].
Proof.
  rewrite (init_stored env m p Hmodel Hprep).
  destruct (setup_style_eq env
              (with_constants (set_preprocessor p (set_model m new_app))) Hbg)
    as (warnings & sheet & -> & [head ->] & Hwarn).
  eexists. split; [reflexivity|].
  destruct Hwarn as [->|(e & _ & ->)]; by repeat split.
Qed.

Lemma init_with_artifacts_witness :
  ∃ tr,
    init unreadable_background_env new_app
    = ({| model := Some example_model; preprocessor := Some example_preprocessor;
          OCCUPATIONS := Some OCCUPATIONS_value;
          BMI_CATEGORIES := Some BMI_CATEGORIES_value;
          DISORDER_MAPPING := Some DISORDER_MAPPING_value |},
       tr, Ok tt)
    ∧ List.filter is_error tr = []
    ∧ predict_calls tr = []
    ∧ transform_calls tr = [].
Proof.
  apply (init_with_artifacts unreadable_background_env
           example_model example_preprocessor eq_refl eq_refl).
  intros e [= <-]. reflexivity.
Defined.

Lemma setup_style_calls (env : Env) (self : SleepDisorderApp) :
  predict_calls (setup_style env self).1.2 = [].
Proof.
  unfold setup_style, try_except, set_background_style, set_default_style,
    raise, bind, emit.
  destruct (Background_jpg env) as [|e|encoded_string]; try reflexivity.
  by destruct (is_Exception e).
Qed.

Lemma init_calls (env : Env) (self : SleepDisorderApp) :
  predict_calls (init env self).1.2 = [].
Proof.
  rewrite init_eq, load_models_eq.
  assert (Hfail : ∀ e, predict_calls (load_failure e).1 = [])
    by (intros e; unfold load_failure; by destruct (is_FileNotFoundError e)).
  destruct (joblib_load _ (sleep_disorder_random_forest_model_pkl env)) as [m|e].
  - destruct (joblib_load _ (preprocessor_pkl env)) as [p|e].
    + pose proof (setup_style_calls env
        (with_constants (set_preprocessor p (set_model m self)))) as Hstyle.
      destruct (setup_style env _) as [[self2 tr2] r]. exact Hstyle.
    + destruct (load_failure_raises e) as [e' ->]. apply Hfail.
  - destruct (load_failure_raises e) as [e' ->]. apply Hfail.
Qed.

Lemma init_returns (env : Env) (self : SleepDisorderApp) tr :
  init env new_app = (self, tr, Ok tt) →
  ∃ m p, sleep_disorder_random_forest_model_pkl env = Stored m
         ∧ preprocessor_pkl env = Stored p
         ∧ self = with_constants (set_preprocessor p (set_model m new_app)).
Proof.
  rewrite init_eq, load_models_eq.
  destruct (sleep_disorder_random_forest_model_pkl env) as [|e|m];
    cbn [joblib_load].
  - discriminate.
  - destruct (load_failure_raises e) as [e' ->]. discriminate.
  - destruct (preprocessor_pkl env) as [|e|p]; cbn [joblib_load].
    + discriminate.
    + destruct (load_failure_raises e) as [e' ->]. discriminate.
    + pose proof (setup_style_state env
        (with_constants (set_preprocessor p (set_model m new_app)))) as Hstate.
      destruct (setup_style env _) as [[self2 tr2] r]. cbn [fst snd] in Hstate.
      intros [= <- _ _]. by exists m, p.
Qed.

(** X18. Over a whole run of the script, the classifier is called only if
    both artifact files were loaded and the form was submitted, and then it
    is called exactly once. *)
Theorem main_predict_requires (env : Env) (features : Features)
    (Hcall : features ∈ predict_calls (main env).1.2) :
  (∃ m p, sleep_disorder_random_forest_model_pkl env = Stored m
          ∧ preprocessor_pkl env = Stored p)
  ∧ clicked (session env) "Predict Sleep Disorder" = true
  ∧ predict_calls (main env).1.2 = [features].
Proof.
  unfold main, bind in *.
  pose proof (init_calls env new_app) as Hinit.
  destruct (init env new_app) as [[self tr] [[]|e]] eqn:Hrun; cbn [fst snd] in *;
    [|rewrite Hinit in Hcall; by apply elem_of_nil in Hcall].
  apply init_returns in Hrun as (m & p & Hm & Hp & ->).
  pose proof (run_predict_calls (session env)
    (with_constants (set_preprocessor p (set_model m new_app)))) as Hcalls.
  rewrite (get_user_input_eq (session env)
             (with_constants (set_preprocessor p (set_model m new_app)))
             OCCUPATIONS_value BMI_CATEGORIES_value eq_refl eq_refl) in Hcalls.
  destruct (run (session env) _) as [[self2 tr2] r]. cbn [fst snd] in *.
  rewrite predict_calls_app, Hinit in Hcall |- *. cbn [app] in *.
  rewrite Hcalls in Hcall |- *.
  destruct (clicked (session env) "Predict Sleep Disorder");
    [|by apply elem_of_nil in Hcall].
  destruct (preprocess_input _ _) as [[self1 tr1] [[features'|]|e]];
    try (by apply elem_of_nil in Hcall).
  destruct (model self1); [|by apply elem_of_nil in Hcall].
  apply list_elem_of_singleton in Hcall as ->.
  split; [by exists m, p|by split].
Qed.

Lemma main_predict_requires_witness :
  (∃ m p,
     sleep_disorder_random_forest_model_pkl
       (example_env (Stored example_model) (Stored example_preprocessor))
     = Stored m
     ∧ preprocessor_pkl
         (example_env (Stored example_model) (Stored example_preprocessor))
       = Stored p)
  ∧ clicked
      (session (example_env (Stored example_model) (Stored example_preprocessor)))
      "Predict Sleep Disorder" = true
  ∧ predict_calls
      (main (example_env (Stored example_model) (Stored example_preprocessor))).1.2
    = [example_features].
Proof.
  apply (main_predict_requires
           (example_env (Stored example_model) (Stored example_preprocessor))
           example_features).
  apply list_elem_of_singleton. vm_compute. reflexivity.
Defined.

(** ** More on the form and on failures *)

(** X20. When the loaded transformer raises an [Exception] on the record,
    [run] writes, after the spinner and the call, the one message
    "Error in preprocessing: " followed by the exception's text, does not
    call the classifier, displays no result, and returns normally. *)
Theorem run_reports_transform_failure (s : Session) (self : SleepDisorderApp)
    occupations bmi_categories p p' e
    (Hocc : OCCUPATIONS self = Some occupations)
    (Hbmi : BMI_CATEGORIES self = Some bmi_categories)
    (Hclick : clicked s "Predict Sleep Disorder" = true)
    (Hprep : preprocessor self = Some p)
    (Htransform :
       Preprocessor.transform p (session_submission_sqrt s occupations bmi_categories)
       = (p', Raise e))
    (Hexn : is_Exception e = true) :
  run s self
  = (set_preprocessor p' self,
     run_title :: form_widgets occupations bmi_categories
       ++ [st_spinner "Analyzing sleep patterns...";
           preprocessor_transform
             (session_submission_sqrt s occupations bmi_categories);
           st_error ("Error in preprocessing: " +:+ str e)],
     Ok tt).
Proof.
  rewrite run_eq, (get_user_input_eq s self _ _ Hocc Hbmi), Hclick.
  rewrite (preprocess_input_submission s self _ _ p Hprep).
  cbv zeta. rewrite Htransform. unfold handled. by rewrite Hexn.
Qed.

Lemma run_reports_transform_failure_witness :
  run untouched (app_with example_model stale_preprocessor)
  = (set_preprocessor stale_preprocessor (app_with example_model stale_preprocessor),
     run_title :: form_widgets OCCUPATIONS_value BMI_CATEGORIES_value
       ++ [st_spinner "Analyzing sleep patterns...";
           preprocessor_transform
             (session_submission_sqrt untouched OCCUPATIONS_value BMI_CATEGORIES_value);
           st_error ("Error in preprocessing: "
                     +:+ str (Exn KeyError "'Sleep Duration'"))],
     Ok tt).
Proof.
  apply (run_reports_transform_failure untouched
           (app_with example_model stale_preprocessor)
           OCCUPATIONS_value BMI_CATEGORIES_value
           stale_preprocessor stale_preprocessor (Exn KeyError "'Sleep Duration'")
           eq_refl eq_refl eq_refl eq_refl eq_refl eq_refl).
Defined.

(** X21. A negative sleep duration does not make [preprocess_input] fail:
    the square root of a negative number is NaN, and the record is passed
    to the loaded transformer with NaN under "Sleep Duration Sqrt". *)
Theorem negative_hours_become_nan
    (self : SleepDisorderApp) (p : Preprocessor.t)
    gender age (mantissa : positive) (exponent : Z) occupation quality activity
    stress bmi systolic diastolic heart_rate steps
    (Hprep : preprocessor self = Some p) :
  transform_calls
    (preprocess_input
       (pd_DataFrame
          (submission gender age (S754_finite true mantissa exponent) occupation
             quality activity stress bmi systolic diastolic heart_rate steps))
       self).1.2
  = [submission_sqrt gender age (S754_finite true mantissa exponent) occupation
       quality activity stress bmi systolic diastolic heart_rate steps]
  ∧ pd.getitem
      (submission_sqrt gender age (S754_finite true mantissa exponent) occupation
         quality activity stress bmi systolic diastolic heart_rate steps)
      "Sleep Duration Sqrt"
    = Ok (Float64Col [S754_nan]).
Proof.
  split; [|reflexivity].
  by rewrite preprocess_input_transform_calls, derived_frame_submission, Hprep.
Qed.

Lemma negative_hours_become_nan_witness :
  transform_calls
    (preprocess_input
       (pd_DataFrame
          (submission "Male" 30 (S754_finite true 1 0) "Others" 7 30 5
             "Normal Weight" 120 80 70 10000))
       (app_with example_model example_preprocessor)).1.2
  = [submission_sqrt "Male" 30 (S754_finite true 1 0) "Others" 7 30 5
       "Normal Weight" 120 80 70 10000]
  ∧ pd.getitem
      (submission_sqrt "Male" 30 (S754_finite true 1 0) "Others" 7 30 5
         "Normal Weight" 120 80 70 10000)
      "Sleep Duration Sqrt"
    = Ok (Float64Col [S754_nan]).
Proof.
  apply (negative_hours_become_nan (app_with example_model example_preprocessor)
           example_preprocessor "Male" 30 1%positive 0 "Others" 7 30 5
           "Normal Weight" 120 80 70 10000 eq_refl).
Defined.

(** X22. [display_recommendations] writes recommendations for exactly
    three names, spelled as in the table: for "Insomnia", "Sleep Apnea" and
    "No Disorder" it writes the heading "### Recommendations:" and then the
    four lines of that name, each after "- ", in the table's order; for
    every other name, "Unknown" and "insomnia" included, it writes nothing.
    In every case it returns normally and leaves the application as it
    was. *)
Theorem display_recommendations_other_names (self : SleepDisorderApp) :
  display_recommendations "Insomnia" self
  = (self,
     [st_markdown "### Recommendations:" false;
      st_markdown "- Maintain a consistent sleep schedule" false;
      st_markdown "- Create a relaxing bedtime routine" false;
      st_markdown "- Avoid screens before bedtime" false;
      st_markdown "- Consider consulting a sleep specialist" false],
     Ok tt)
  ∧ display_recommendations "Sleep Apnea" self
    = (self,
       [st_markdown "### Recommendations:" false;
        st_markdown "- Sleep on your side instead of your back" false;
        st_markdown "- Maintain a healthy weight" false;
        st_markdown "- Consider using a CPAP machine" false;
        st_markdown "- Consult a healthcare provider for proper diagnosis" false],
       Ok tt)
  ∧ display_recommendations "No Disorder" self
    = (self,
       [st_markdown "### Recommendations:" false;
        st_markdown "- Continue maintaining good sleep habits" false;
        st_markdown "- Stay physically active" false;
        st_markdown "- Monitor sleep quality regularly" false;
        st_markdown "- Practice stress management" false],
       Ok tt)
  ∧ ∀ disorder : string,
      disorder ∉ ["Insomnia"; "Sleep Apnea"; "No Disorder"] →
      display_recommendations disorder self = (self, [], Ok tt).
Proof.
  do 3 (split; [by rewrite display_recommendations_events|]).
  intros disorder Hother.
  rewrite display_recommendations_events. unfold recommendation_events.
  assert (Hnone : recommendations !! disorder = None).
  { unfold recommendations. cbn [list_to_map foldr].
    rewrite !lookup_insert_ne; [apply lookup_empty| | |];
      intros <-; apply Hother; set_solver. }
  by rewrite Hnone.
Qed.

Lemma display_recommendations_other_names_witness :
  display_recommendations "insomnia" new_app = (new_app, [], Ok tt)
  ∧ display_recommendations "Unknown" new_app = (new_app, [], Ok tt)
  ∧ display_recommendations "Sleep Apnea" new_app
    = (new_app,
       [st_markdown "### Recommendations:" false;
        st_markdown "- Sleep on your side instead of your back" false;
        st_markdown "- Maintain a healthy weight" false;
        st_markdown "- Consider using a CPAP machine" false;
        st_markdown "- Consult a healthcare provider for proper diagnosis" false],
       Ok tt).
Proof.
  pose proof (display_recommendations_other_names new_app)
    as (_ & Hapnea & _ & Hother).
  split; [|split; [|exact Hapnea]]; apply Hother; intros Hin;
    repeat (apply elem_of_cons in Hin as [Hin|Hin]; [discriminate Hin|]);
    by apply elem_of_nil in Hin.
Defined.

(** ** The input form and its ranges *)

Lemma display_prediction_transform_calls prediction (self : SleepDisorderApp) :
  transform_calls (display_prediction prediction self).1.2 = [].
Proof.
  destruct prediction as [prediction|]; [|reflexivity].
  unfold display_prediction, bind, getattr, lift, emit.
  destruct (DISORDER_MAPPING self) as [mapping|]; [|reflexivity].
  destruct prediction as [|l rest]; [reflexivity|]. cbn [first_label].
  destruct (dict_get mapping l ("Unknown", "gray")) as [disorder color].
  destruct (display_recommendations_state disorder self) as (tr & Htr & _ & Ht).
  cbv beta iota. rewrite Htr. cbn. exact Ht.
Qed.

Lemma predict_and_display_transform_calls (features : Features)
    (self : SleepDisorderApp) :
  transform_calls (predict_and_display features self).1.2 = [].
Proof.
  rewrite predict_and_display_eq.
  destruct (model self) as [m|]; [|reflexivity].
  destruct (predict m features) as [prediction|e];
    [|by destruct (is_Exception e)].
  pose proof (display_prediction_transform_calls prediction self) as Hshow.
  unfold transform_calls in *.
  destruct (display_prediction prediction self) as [[self2 tr2] [[]|e]];
    cbn [fst snd] in Hshow; cbn.
  - exact Hshow.
  - destruct (is_Exception e); cbn; rewrite ?omap_app, Hshow; done.
Qed.

(** The calls that [run] makes on the loaded transformer: one, on the
    record of the form with the square root of its hours, when the form is
    submitted, and none before. *)
Lemma run_transform_calls (s : Session) (self : SleepDisorderApp)
    occupations bmi_categories p :
  OCCUPATIONS self = Some occupations →
  BMI_CATEGORIES self = Some bmi_categories →
  preprocessor self = Some p →
  transform_calls (run s self).1.2
  = if clicked s "Predict Sleep Disorder"
    then [session_submission_sqrt s occupations bmi_categories]
    else [].
Proof.
  intros Ho Hb Hp.
  rewrite run_eq, (get_user_input_eq s self _ _ Ho Hb).
  destruct (clicked s "Predict Sleep Disorder"); [|reflexivity].
  rewrite (preprocess_input_submission s self _ _ p Hp). cbv zeta.
  destruct (Preprocessor.transform p _) as [p' [features|e]].
  - pose proof (predict_and_display_transform_calls features (set_preprocessor p' self))
      as Hcalls.
    destruct (predict_and_display features (set_preprocessor p' self))
      as [[self2 tr2] r].
    cbn [fst snd] in *. unfold transform_calls in *.
    cbn. by rewrite Hcalls.
  - unfold handled. destruct (is_Exception e); reflexivity.
Qed.

Lemma within_bounds lo hi v :
  within (Some lo) (Some hi) v = true → lo <= v <= hi.
Proof.
  unfold within. cbn [from_option].
  rewrite andb_true_iff, !Z.leb_le. tauto.
Qed.

Lemma entered_in_range (s : Session) label lo hi value :
  from_option (within (Some lo) (Some hi)) true (entered s label) = true →
  lo <= value <= hi →
  lo <= default value (entered s label) <= hi.
Proof.
  destruct (entered s label) as [v|]; cbn [from_option default]; [|done].
  intros Hv _. by apply within_bounds.
Qed.

(** A [number_input] whose entry the browser has checked, or whose server
    resets an entry out of its bounds, returns a number within them. *)
Lemma returned_in_range (s : Session) (entry : option Z) lo hi value :
  from_option (within (Some lo) (Some hi)) true entry = true
  ∨ resets_out_of_range s = true →
  lo <= value <= hi →
  lo <= returned (within (Some lo) (Some hi)) s value entry <= hi.
Proof.
  intros Hchecked Hvalue. destruct entry as [v|]; cbn [returned]; [|done].
  destruct (within (Some lo) (Some hi) v) eqn:Hv;
    [by apply within_bounds|].
  destruct Hchecked as [Hchecked | ->]; [cbn [from_option] in Hchecked; congruence|done].
Qed.

Lemma returned_at_least (s : Session) (entry : option Z) lo value :
  from_option (within (Some lo) None) true entry = true
  ∨ resets_out_of_range s = true →
  lo <= value →
  lo <= returned (within (Some lo) None) s value entry.
Proof.
  intros Hchecked Hvalue. destruct entry as [v|]; cbn [returned]; [|done].
  destruct (within (Some lo) None v) eqn:Hv.
  - unfold within in Hv. cbn [from_option] in Hv.
    by rewrite andb_true_r, Z.leb_le in Hv.
  - destruct Hchecked as [Hchecked | ->]; [cbn [from_option] in Hchecked; congruence|done].
Qed.

Lemma returned_float_in_range (s : Session) (entry : option float) lo hi value :
  from_option (within_float (Some lo) (Some hi)) true entry = true
  ∨ resets_out_of_range s = true →
  SFleb lo value = true → SFleb value hi = true →
  SFleb lo (returned (within_float (Some lo) (Some hi)) s value entry) = true
  ∧ SFleb (returned (within_float (Some lo) (Some hi)) s value entry) hi = true.
Proof.
  intros Hchecked Hlo Hhi. destruct entry as [v|]; cbn [returned]; [|done].
  destruct (within_float (Some lo) (Some hi) v) eqn:Hv.
  - unfold within_float in Hv. cbn [from_option] in Hv.
    by apply andb_prop in Hv as [? ?].
  - destruct Hchecked as [Hchecked | ->]; [cbn [from_option] in Hchecked; congruence|done].
Qed.

(** With a server that passes entries on, a [number_input] returns what was
    entered, within its bounds or not. *)
Lemma returned_passed_on {A} (inside : A → bool) (s : Session) value entry :
  resets_out_of_range s = false →
  returned inside s value entry = default value entry.
Proof.
  intros Hs. destruct entry as [v|]; cbn [returned default]; [|done].
  by rewrite Hs, orb_true_r.
Qed.

(** The numeric fields of the record lie in their ranges when the two
    sliders' values do and every [number_input] was either checked by the
    browser or is reset by the server. *)
Lemma session_submission_in_ranges (s : Session) occupations bmi_categories :
  (browser_checked s (form_widgets occupations bmi_categories)
   ∨ (resets_out_of_range s = true
      ∧ respects s (st_slider "Quality of Sleep" 1 10 7) = true
      ∧ respects s (st_slider "Stress Level" 1 10 5) = true)) →
  ∃ gender age hours occupation quality activity stress bmi
    systolic diastolic heart_rate steps,
    session_submission s occupations bmi_categories
    = submission gender age hours occupation quality activity stress bmi
        systolic diastolic heart_rate steps
    ∧ in_ranges age hours quality activity stress
        systolic diastolic heart_rate steps.
Proof.
  intros Hs.
  assert (Hall :
    (from_option (within (Some 18) (Some 100)) true (entered s "Age") = true
     ∨ resets_out_of_range s = true)
    ∧ (from_option (within_float (Some (float_lit 0 0)) (Some (float_lit 24 0)))
         true (entered_float s "Sleep Duration (hours)") = true
       ∨ resets_out_of_range s = true)
    ∧ from_option (within (Some 1) (Some 10)) true
        (entered s "Quality of Sleep") = true
    ∧ (from_option (within (Some 0) None) true
         (entered s "Physical Activity (minutes/day)") = true
       ∨ resets_out_of_range s = true)
    ∧ from_option (within (Some 1) (Some 10)) true (entered s "Stress Level") = true
    ∧ (from_option (within (Some 70) (Some 200)) true
         (entered s "Systolic Blood Pressure") = true
       ∨ resets_out_of_range s = true)
    ∧ (from_option (within (Some 40) (Some 130)) true
         (entered s "Diastolic Blood Pressure") = true
       ∨ resets_out_of_range s = true)
    ∧ (from_option (within (Some 40) (Some 200)) true
         (entered s "Heart Rate (bpm)") = true
       ∨ resets_out_of_range s = true)
    ∧ (from_option (within (Some 0) (Some 50000)) true
         (entered s "Daily Steps") = true
       ∨ resets_out_of_range s = true)).
  { destruct Hs as [Hchecked|(Hresets & Hquality & Hstress)].
    - revert Hchecked. unfold browser_checked, form_widgets. rewrite !Forall_cons.
      cbn [respects].
      intros (_ & Hage & Hhours & _ & Hquality & Hactivity & Hstress & _
              & Hsys & Hdia & Hheart & Hsteps & _).
      repeat split; auto.
    - cbn [respects] in Hquality, Hstress. repeat split; auto. }
  destruct Hall as (Hage & Hhours & Hquality & Hactivity & Hstress
                    & Hsys & Hdia & Hheart & Hsteps).
  unfold session_submission. do 12 eexists. split; [reflexivity|].
  unfold in_ranges.
  split; [by apply returned_in_range|].
  split; [by apply returned_float_in_range|].
  split; [by apply returned_float_in_range|].
  split; [by apply entered_in_range|].
  split; [by apply returned_at_least|].
  split; [by apply entered_in_range|].
  repeat (split; [by apply returned_in_range|]).
  by apply returned_in_range.
Qed.

(** C5, as the specification states it, fails: with 17 entered as the age
    nothing is rejected, whatever the server does with the entry. Where it
    resets an entry out of bounds, [get_user_input] returns the record with
    the default age 30; where it passes the entry on, the record with age
    17. Either way [get_user_input] raises nothing and writes no error,
    and [run] goes on: it hands the record to the transformer, writes no
    error message and returns normally. *)
Lemma age_17_not_rejected :
  respects age_17 (st_number_input "Age" (Some 18) (Some 100) 30) = false
  ∧ respects age_17_passed_on (st_number_input "Age" (Some 18) (Some 100) 30)
    = false
  ∧ get_user_input age_17 (example_app example_preprocessor)
    = (example_app example_preprocessor,
       form_widgets OCCUPATIONS_value BMI_CATEGORIES_value,
       Ok (true,
           submission "Male" 30 (float_lit 15 (-1)) "Others" 7 30 5
             "Normal Weight" 120 80 70 10000))
  ∧ get_user_input age_17_passed_on (example_app example_preprocessor)
    = (example_app example_preprocessor,
       form_widgets OCCUPATIONS_value BMI_CATEGORIES_value,
       Ok (true,
           submission "Male" 17 (float_lit 15 (-1)) "Others" 7 30 5
             "Normal Weight" 120 80 70 10000))
  ∧ transform_calls (run age_17 (example_app example_preprocessor)).1.2
    = [submission_sqrt "Male" 30 (float_lit 15 (-1)) "Others" 7 30 5
         "Normal Weight" 120 80 70 10000]
  ∧ transform_calls (run age_17_passed_on (example_app example_preprocessor)).1.2
    = [submission_sqrt "Male" 17 (float_lit 15 (-1)) "Others" 7 30 5
         "Normal Weight" 120 80 70 10000]
  ∧ List.filter is_error (run age_17 (example_app example_preprocessor)).1.2 = []
  ∧ List.filter is_error
      (run age_17_passed_on (example_app example_preprocessor)).1.2 = []
  ∧ (run age_17 (example_app example_preprocessor)).2 = Ok tt
  ∧ (run age_17_passed_on (example_app example_preprocessor)).2 = Ok tt.
Proof. repeat split; vm_compute; reflexivity. Qed.

(** C5, amended. [get_user_input] validates nothing itself and has no
    error for a value out of range: in every session it declares each
    numeric field's range to its widget (Age 18 to 100, Sleep Duration 0.0
    to 24.0, Quality of Sleep and Stress Level 1 to 10, Physical Activity
    at least 0 with no maximum, Systolic 70 to 200, Diastolic 40 to 130,
    Heart Rate 40 to 200, Daily Steps 0 to 50000), writes nothing else and
    returns the widgets' values as the record of twelve fields. Whenever
    the session respects the bounds the widgets declare, every numeric
    field of the record lies in its range. Where the server resets a number
    entered out of bounds, the same holds as soon as the two sliders are
    respected, whatever was entered in the number inputs. Where the server
    passes such a number on, the record holds exactly what was entered,
    out of range or not. In every case the submitted record, with the
    square root of its hours, is what [run] hands to the loaded
    transformer. *)
Theorem form_declares_ranges (s : Session) (self : SleepDisorderApp) :
  get_user_input s (with_constants self)
  = (with_constants self,
     form_widgets OCCUPATIONS_value BMI_CATEGORIES_value,
     Ok (clicked s "Predict Sleep Disorder",
         session_submission s OCCUPATIONS_value BMI_CATEGORIES_value))
  ∧ List.filter is_error (get_user_input s (with_constants self)).1.2 = []
  ∧ (browser_checked s (form_widgets OCCUPATIONS_value BMI_CATEGORIES_value) →
     ∃ gender age hours occupation quality activity stress bmi
       systolic diastolic heart_rate steps,
       session_submission s OCCUPATIONS_value BMI_CATEGORIES_value
       = submission gender age hours occupation quality activity stress bmi
           systolic diastolic heart_rate steps
       ∧ in_ranges age hours quality activity stress
           systolic diastolic heart_rate steps)
  ∧ (resets_out_of_range s = true →
     respects s (st_slider "Quality of Sleep" 1 10 7) = true →
     respects s (st_slider "Stress Level" 1 10 5) = true →
     ∃ gender age hours occupation quality activity stress bmi
       systolic diastolic heart_rate steps,
       session_submission s OCCUPATIONS_value BMI_CATEGORIES_value
       = submission gender age hours occupation quality activity stress bmi
           systolic diastolic heart_rate steps
       ∧ in_ranges age hours quality activity stress
           systolic diastolic heart_rate steps)
  ∧ (resets_out_of_range s = false →
     session_submission s OCCUPATIONS_value BMI_CATEGORIES_value
     = submission
         (default "Male" (chosen s "Gender"))
         (default 30 (entered s "Age"))
         (default (float_lit 15 (-1)) (entered_float s "Sleep Duration (hours)"))
         (default "Others" (chosen s "Occupation"))
         (default 7 (entered s "Quality of Sleep"))
         (default 30 (entered s "Physical Activity (minutes/day)"))
         (default 5 (entered s "Stress Level"))
         (default "Normal Weight" (chosen s "BMI Category"))
         (default 120 (entered s "Systolic Blood Pressure"))
         (default 80 (entered s "Diastolic Blood Pressure"))
         (default 70 (entered s "Heart Rate (bpm)"))
         (default 10000 (entered s "Daily Steps")))
  ∧ (∀ p, preprocessor self = Some p →
          clicked s "Predict Sleep Disorder" = true →
          transform_calls (run s (with_constants self)).1.2
          = [session_submission_sqrt s OCCUPATIONS_value BMI_CATEGORIES_value]
          ∧ pd.getitem
              (session_submission_sqrt s OCCUPATIONS_value BMI_CATEGORIES_value)
              "Age"
            = pd.getitem
                (session_submission s OCCUPATIONS_value BMI_CATEGORIES_value)
                "Age").
Proof.
  assert (Hform := get_user_input_eq s (with_constants self)
                     OCCUPATIONS_value BMI_CATEGORIES_value eq_refl eq_refl).
  split; [exact Hform|].
  split; [by rewrite Hform|].
  split; [intros Hchecked; apply session_submission_in_ranges; by left|].
  split.
  { intros Hresets Hquality Hstress.
    apply session_submission_in_ranges. right. by repeat split. }
  split.
  { intros Hpass. unfold session_submission.
    by rewrite !(returned_passed_on _ s _ _ Hpass). }
  intros p Hp Hclick. split; [|reflexivity].
  rewrite (run_transform_calls s (with_constants self)
             OCCUPATIONS_value BMI_CATEGORIES_value p eq_refl eq_refl Hp).
  by rewrite Hclick.
Qed.

Lemma form_declares_ranges_witness :
  (∃ gender age hours occupation quality activity stress bmi
     systolic diastolic heart_rate steps,
     session_submission filled OCCUPATIONS_value BMI_CATEGORIES_value
     = submission gender age hours occupation quality activity stress bmi
         systolic diastolic heart_rate steps
     ∧ in_ranges age hours quality activity stress
         systolic diastolic heart_rate steps)
  ∧ (∃ gender age hours occupation quality activity stress bmi
       systolic diastolic heart_rate steps,
       session_submission age_17 OCCUPATIONS_value BMI_CATEGORIES_value
       = submission gender age hours occupation quality activity stress bmi
           systolic diastolic heart_rate steps
       ∧ in_ranges age hours quality activity stress
           systolic diastolic heart_rate steps)
  ∧ session_submission age_17_passed_on OCCUPATIONS_value BMI_CATEGORIES_value
    = submission "Male" 17 (float_lit 15 (-1)) "Others" 7 30 5
        "Normal Weight" 120 80 70 10000
  ∧ transform_calls
      (run age_17_passed_on
         (with_constants (example_app example_preprocessor))).1.2
    = [session_submission_sqrt age_17_passed_on OCCUPATIONS_value
         BMI_CATEGORIES_value].
Proof.
  split; [|split; [|split]].
  - apply (proj1 (proj2 (proj2 (form_declares_ranges filled new_app)))).
    unfold browser_checked, form_widgets. repeat constructor.
  - apply (proj1 (proj2 (proj2 (proj2 (form_declares_ranges age_17 new_app)))));
      reflexivity.
  - apply (proj1 (proj2 (proj2 (proj2 (proj2
             (form_declares_ranges age_17_passed_on new_app)))))).
    reflexivity.
  - apply (proj2 (proj2 (proj2 (proj2 (proj2
             (form_declares_ranges age_17_passed_on
                (example_app example_preprocessor))))))
             example_preprocessor eq_refl eq_refl).
Defined.

(** X19. The three categorical fields of the record that [get_user_input]
    returns are what was chosen in their select boxes, and the first option
    ("Male", "Others", "Normal Weight") where nothing was chosen. Whenever
    the session respects what the widgets declare, they are options of
    their select boxes: Gender is "Male" or "Female", Occupation one of the
    eight occupations, BMI Category one of the three categories. *)
Theorem form_categories_from_options (s : Session) (self : SleepDisorderApp)
    (Hchecked : browser_checked s (form_widgets OCCUPATIONS_value BMI_CATEGORIES_value)) :
  ∃ submit gender occupation bmi_category,
    (get_user_input s (with_constants self)).2
    = Ok (submit, session_submission s OCCUPATIONS_value BMI_CATEGORIES_value)
    ∧ pd.getitem (session_submission s OCCUPATIONS_value BMI_CATEGORIES_value) "Gender"
      = Ok (ObjectCol [gender])
    ∧ pd.getitem (session_submission s OCCUPATIONS_value BMI_CATEGORIES_value) "Occupation"
      = Ok (ObjectCol [occupation])
    ∧ pd.getitem (session_submission s OCCUPATIONS_value BMI_CATEGORIES_value) "BMI Category"
      = Ok (ObjectCol [bmi_category])
    ∧ gender = default "Male" (chosen s "Gender")
    ∧ occupation = default "Others" (chosen s "Occupation")
    ∧ bmi_category = default "Normal Weight" (chosen s "BMI Category")
    ∧ gender ∈ ["Male"; "Female"]
    ∧ occupation ∈ OCCUPATIONS_value
    ∧ bmi_category ∈ BMI_CATEGORIES_value.
Proof.
  assert (Hin : ∀ label options first,
    head options = Some first →
    from_option (λ c, existsb (String.eqb c) options) true (chosen s label) = true →
    default (default "" (head options)) (chosen s label) ∈ options).
  { intros label options first Hfirst.
    destruct (chosen s label) as [c|]; cbn [from_option default].
    - intros Hc. apply existsb_exists in Hc as (x & Hx & ->%String.eqb_eq).
      by apply list_elem_of_In.
    - intros _. rewrite Hfirst. cbn [default].
      destruct options; [discriminate|]. injection Hfirst as ->. by left. }
  revert Hchecked. unfold browser_checked, form_widgets. rewrite !Forall_cons.
  cbn [respects].
  intros (Hgender & _ & _ & Hocc & _ & _ & _ & Hbmi & _).
  rewrite (get_user_input_eq s (with_constants self)
             OCCUPATIONS_value BMI_CATEGORIES_value eq_refl eq_refl).
  do 4 eexists. split; [reflexivity|].
  do 6 (split; [reflexivity|]).
  split; [by apply (Hin "Gender" _ "Male")|].
  split; [by apply (Hin "Occupation" _ "Others")|].
  by apply (Hin "BMI Category" _ "Normal Weight").
Qed.

Lemma form_categories_from_options_witness :
  ∃ submit gender occupation bmi_category,
    (get_user_input filled (with_constants new_app)).2
    = Ok (submit, session_submission filled OCCUPATIONS_value BMI_CATEGORIES_value)
    ∧ pd.getitem
        (session_submission filled OCCUPATIONS_value BMI_CATEGORIES_value) "Gender"
      = Ok (ObjectCol [gender])
    ∧ pd.getitem
        (session_submission filled OCCUPATIONS_value BMI_CATEGORIES_value) "Occupation"
      = Ok (ObjectCol [occupation])
    ∧ pd.getitem
        (session_submission filled OCCUPATIONS_value BMI_CATEGORIES_value) "BMI Category"
      = Ok (ObjectCol [bmi_category])
    ∧ gender = default "Male" (chosen filled "Gender")
    ∧ occupation = default "Others" (chosen filled "Occupation")
    ∧ bmi_category = default "Normal Weight" (chosen filled "BMI Category")
    ∧ gender ∈ ["Male"; "Female"]
    ∧ occupation ∈ OCCUPATIONS_value
    ∧ bmi_category ∈ BMI_CATEGORIES_value.
Proof.
  apply (form_categories_from_options filled new_app).
  unfold browser_checked, form_widgets. repeat constructor.
Defined.
